(** * Movie feature ingestion ([store_data/store_db_milvus.py])

    A shallow embedding of the loop that streams the rows of
    [data/movie_feature_calculated.csv] into the movie feature collection
    (lines 143-186 of the script), and the properties of that loop.

    Python values are embedded as follows.
    - A [str] is a Rocq [string]; each character stands for one code point
      in the range 0..255, so that [len] counts code points.
    - An [int] is a [Z].
    - A list is a Rocq [list].
    - An uncaught exception is a value of [exn]; the script has no
      [try]/[except], so every exception ends the run. *)

From Stdlib Require Import ZArith List String Ascii Bool Lia.
Import ListNotations.

Local Open Scope Z_scope.

(** ** Python values and exceptions *)

Inductive exn : Type :=
| ValueError
| SyntaxError
| IndexError.

Inductive pyval : Type :=
| VInt (n : Z)
| VFloat (mantissa exp10 : Z)
| VStr (s : string)
| VList (items : list pyval).

(** ** The string methods used by the script *)

Module PyStr.

Definition code (c : ascii) : Z := Z.of_N (N_of_ascii c).

(** The ASCII digits, the only decimal digits below code point 256. *)
Definition isdecimal_char (c : ascii) : bool :=
  (48 <=? code c) && (code c <=? 57).

(** Characters with a Unicode numeric value.  Below code point 256 these
    are the ASCII digits, the superscripts U+00B2, U+00B3, U+00B9 and the
    vulgar fractions U+00BC..U+00BE. *)
Definition isnumeric_char (c : ascii) : bool :=
  isdecimal_char c
  || (code c =? 178) || (code c =? 179) || (code c =? 185)
  || ((188 <=? code c) && (code c <=? 190)).

Fixpoint all_chars (p : ascii -> bool) (s : string) : bool :=
  match s with
  | EmptyString => true
  | String c s' => p c && all_chars p s'
  end.

Definition nonempty (s : string) : bool :=
  match s with
  | EmptyString => false
  | String _ _ => true
  end.

(** [str.isnumeric()]: at least one character, all of them numeric. *)
Definition isnumeric (s : string) : bool :=
  nonempty s && all_chars isnumeric_char s.

(** [str.isdecimal()]: at least one character, all of them decimal
    digits.  This is the reading of "consists only of decimal digits". *)
Definition isdecimal (s : string) : bool :=
  nonempty s && all_chars isdecimal_char s.

Fixpoint digits_value (acc : Z) (s : string) : Z :=
  match s with
  | EmptyString => acc
  | String c s' => digits_value (10 * acc + (code c - 48)) s'
  end.

Definition len (s : string) : Z := Z.of_nat (String.length s).

(** The interpreter's limit on the number of digits of a string that [int]
    converts ([sys.get_int_max_str_digits()], 4300 unless the program
    changes it; the script does not). *)
Definition max_str_digits : Z := 4300.

(** [int(data)] for a string without sign, blank or underscore (every
    string that passes [isnumeric] is one): the value of the digits, or
    [ValueError] when a character is not a decimal digit or when there are
    more than [max_str_digits] digits. *)
Definition int (data : string) : exn + Z :=
  if isdecimal data then
    if max_str_digits <? len data then inl ValueError
    else inr (digits_value 0 data)
  else inl ValueError.

(** [data.replace("'", " ")] *)
Fixpoint replace_quote (data : string) : string :=
  match data with
  | EmptyString => EmptyString
  | String c s' =>
      String (if code c =? 39 then " "%char else c) (replace_quote s')
  end.

(** [c * n] *)
Fixpoint repeat_char (c : ascii) (n : nat) : string :=
  match n with
  | O => EmptyString
  | S n' => String c (repeat_char c n')
  end.

End PyStr.

(** ** A reader for list-of-number literals

    [ast.literal_eval] is library code.  The ingestion loop below takes it
    as a parameter.  For closed examples the following reader is used: it
    covers the literals the data file holds in its vector column, that is
    (possibly nested) list displays of signed decimal integers and floats,
    with blanks and tabs between tokens and an optional trailing comma.
    Every other string is reported as [SyntaxError]; that is what the
    library does for a list display that is never closed, the only such
    string used below.  A float is kept as the decimal it is written
    as, [mantissa * 10 ^ exp10]. *)

Module Literal.

Import PyStr.

Definition chars := list ascii.

Fixpoint skip_ws (s : chars) : chars :=
  match s with
  | c :: s' => if (code c =? 32) || (code c =? 9) then skip_ws s' else s
  | [] => []
  end.

(** The longest prefix of decimal digits: its value continuing [acc], the
    number of digits read, and the rest. *)
Fixpoint read_digits (acc : Z) (count : Z) (s : chars) : Z * Z * chars :=
  match s with
  | c :: s' =>
      if isdecimal_char c
      then read_digits (10 * acc + (code c - 48)) (count + 1) s'
      else (acc, count, s)
  | [] => (acc, count, [])
  end.

(** An optional exponent part [e|E [+|-] digits]. *)
Definition read_exponent (s : chars) : option (option Z * chars) :=
  match s with
  | c :: s' =>
      if (code c =? 101) || (code c =? 69) then
        let '(neg, s1) :=
          match s' with
          | d :: s'' =>
              if code d =? 45 then (true, s'')
              else if code d =? 43 then (false, s'')
              else (false, s')
          | [] => (false, s')
          end in
        let '(v, n, rest) := read_digits 0 0 s1 in
        if n =? 0 then None
        else Some (Some (if neg then - v else v), rest)
      else Some (None, s)
  | [] => Some (None, s)
  end.

(** An unsigned number: [digits], [digits . digits?], [. digits], each
    with an optional exponent.  An integer with a leading zero must be
    all zeros. *)
Definition read_unsigned (s : chars) : option (pyval * chars) :=
  let '(ip, ni, s1) := read_digits 0 0 s in
  match s1 with
  | c :: s2 =>
      if code c =? 46 then
        let '(m, nf, s3) := read_digits ip 0 s2 in
        if (ni =? 0) && (nf =? 0) then None
        else
          match read_exponent s3 with
          | Some (Some e, rest) => Some (VFloat m (e - nf), rest)
          | Some (None, rest) => Some (VFloat m (- nf), rest)
          | None => None
          end
      else if ni =? 0 then None
      else
        match read_exponent s1 with
        | Some (Some e, rest) => Some (VFloat ip e, rest)
        | Some (None, rest) =>
            match s with
            | z :: _ =>
                if (code z =? 48) && negb (ip =? 0) then None
                else Some (VInt ip, rest)
            | [] => None
            end
        | None => None
        end
  | [] =>
      if ni =? 0 then None
      else
        match s with
        | z :: _ =>
            if (code z =? 48) && negb (ip =? 0) then None
            else Some (VInt ip, [])
        | [] => None
        end
  end.

Definition negate (v : pyval) : pyval :=
  match v with
  | VInt n => VInt (- n)
  | VFloat m e => VFloat (- m) e
  | other => other
  end.

(** A number with at most one sign in front of it. *)
Definition read_number (s : chars) : option (pyval * chars) :=
  match s with
  | c :: s' =>
      if code c =? 45 then
        match read_unsigned (skip_ws s') with
        | Some (v, rest) => Some (negate v, rest)
        | None => None
        end
      else if code c =? 43 then read_unsigned (skip_ws s')
      else read_unsigned s
  | [] => None
  end.

(** [read_value] reads one value; [read_items] reads the items of a list
    display after its opening bracket, up to and including the closing
    one.  Both are bounded by [fuel]. *)
Fixpoint read_value (fuel : nat) (s : chars) : option (pyval * chars) :=
  match fuel with
  | O => None
  | S fuel' =>
      match s with
      | c :: s' =>
          if code c =? 91 then
            match skip_ws s' with
            | d :: s'' =>
                if code d =? 93 then Some (VList [], s'')
                else
                  match read_items fuel' (d :: s'') with
                  | Some (items, rest) => Some (VList items, rest)
                  | None => None
                  end
            | [] => None
            end
          else read_number s
      | [] => None
      end
  end
with read_items (fuel : nat) (s : chars) : option (list pyval * chars) :=
  match fuel with
  | O => None
  | S fuel' =>
      match read_value fuel' s with
      | Some (v, rest) =>
          match skip_ws rest with
          | c :: rest1 =>
              if code c =? 93 then Some ([v], rest1)
              else if code c =? 44 then
                match skip_ws rest1 with
                | d :: rest2 =>
                    if code d =? 93 then Some ([v], rest2)
                    else
                      match read_items fuel' (d :: rest2) with
                      | Some (items, rest3) => Some (v :: items, rest3)
                      | None => None
                      end
                | [] => None
                end
              else None
          | [] => None
          end
      | None => None
      end
  end.

Definition literal_eval (node_or_string : string) : exn + pyval :=
  let s := skip_ws (list_ascii_of_string node_or_string) in
  match read_value (2 * List.length s + 2) s with
  | Some (v, rest) =>
      match skip_ws rest with
      | [] => inr v
      | _ :: _ => inl SyntaxError
      end
  | None => inl SyntaxError
  end.

(** An integer or a float. *)
Definition is_number (v : pyval) : bool :=
  match v with
  | VInt _ | VFloat _ _ => true
  | _ => false
  end.

(** A sequence of exactly [dim] numeric values. *)
Definition is_vector (dim : Z) (v : pyval) : bool :=
  match v with
  | VList items =>
      (Z.of_nat (List.length items) =? dim) && forallb is_number items
  | _ => false
  end.

End Literal.

(** ** The movie feature loop *)

(** Line 162. *)
Definition numeric_columns_idx : list nat := [5; 8; 12; 19; 20; 25; 26]%nat.

(** [col in numeric_columns_idx] *)
Definition in_numeric_columns (col : nat) : bool :=
  existsb (Nat.eqb col) numeric_columns_idx.

(** What one pass through the body of the column loop (lines 165-175) does:
    it stores a value in [data_arr[col]], or sets [long_data_exists] and
    breaks, or an exception leaves the loop. *)
Inductive cell_result : Type :=
| Store (data : pyval)
| LongData
| CellRaise (e : exn).

Definition convert (col : nat) (cell : string) : cell_result :=
  let data := cell in
  if PyStr.isnumeric data && in_numeric_columns col then
    match PyStr.int data with
    | inr n => Store (VInt n)
    | inl e => CellRaise e
    end
  else
    let data := PyStr.replace_quote data in
    if 10000 <? PyStr.len data then LongData else Store (VStr data).

(** The column loop (lines 164-175) from column [col] on, over the cells
    that are left. *)
Inductive loop_result : Type :=
| Completed (data_arr : list pyval)
| LongDataExists
| LoopRaise (e : exn).

Fixpoint columns (col : nat) (cells : list string) : loop_result :=
  match cells with
  | [] => Completed []
  | cell :: rest =>
      match convert col cell with
      | Store data =>
          match columns (S col) rest with
          | Completed data_arr => Completed (data :: data_arr)
          | stopped => stopped
          end
      | LongData => LongDataExists
      | CellRaise e => LoopRaise e
      end
  end.

(** One accepted row as handed to [insert]: a list of one-element lists. *)
Definition entity : Type := list (list pyval).

(** The loop state: the counter [it] and the entities handed to
    [movie_feature_collection.insert] so far, the newest first.  The
    collection belongs to the store; here [insert] records its argument. *)
Record state : Type := mkState {
  it : Z;
  inserted : list entity
}.

(** The way one iteration of the row loop ends. *)
Inductive path : Type :=
| ShortRow                         (* line 153, continue *)
| LimitReached                     (* line 156, break *)
| LongRow                          (* line 178, continue *)
| Raised (e : exn)                 (* an exception leaves the loop *)
| Inserted (insert_data : entity). (* lines 185-186 *)

(** How the run ends, and what it leaves. *)
Inductive stop : Type :=
| Exhausted
| Break
| Uncaught (e : exn).

Record run : Type := mkRun {
  final : state;
  how : stop;
  unread : list (list string)
}.

Section Ingest.

(** [ast.literal_eval] applied to a string: the value, or the exception
    it raises. *)
Variable literal_eval : string -> exn + pyval.

(** The constant of line 155 (20000 in the script). *)
Variable limit : Z.

(** Line 180: [data_arr[len(data_arr) - 1]] is replaced by its literal
    value.  Indexing an empty list raises [IndexError]; [literal_eval]
    of an [int] raises [ValueError]. *)
Fixpoint eval_last (data_arr : list pyval) : exn + list pyval :=
  match data_arr with
  | [] => inl IndexError
  | [VStr s] =>
      match literal_eval s with
      | inr v => inr [v]
      | inl e => inl e
      end
  | [_] => inl ValueError
  | data :: rest =>
      match eval_last rest with
      | inr rest' => inr (data :: rest')
      | inl e => inl e
      end
  end.

(** Lines 151-186, one iteration of the row loop. *)
Definition body (st : state) (movie_feature : list string) : path :=
  let data_arr := movie_feature in
  if (List.length data_arr <? 29)%nat then ShortRow
  else if limit <? it st then LimitReached
  else
    match columns 0 (tl data_arr) with
    | LongDataExists => LongRow
    | LoopRaise e => Raised e
    | Completed data_arr =>
        match eval_last data_arr with
        | inl e => Raised e
        | inr data_arr => Inserted (map (fun data => [data]) data_arr)
        end
    end.

(** Lines 149-186: the row loop over the rows that follow the header. *)
Fixpoint ingest (st : state) (movie_features : list (list string)) : run :=
  match movie_features with
  | [] => mkRun st Exhausted []
  | movie_feature :: rest =>
      match body st movie_feature with
      | ShortRow => ingest st rest
      | LimitReached => mkRun st Break rest
      | LongRow => ingest st rest
      | Raised e => mkRun st (Uncaught e) rest
      | Inserted insert_data =>
          ingest (mkState (it st + 1) (insert_data :: inserted st)) rest
      end
  end.

End Ingest.

(** Line 147. *)
Definition start : state := mkState 0 [].

(** The run of the script on the rows of the file. *)
Definition movie_ingest (literal_eval : string -> exn + pyval)
    (movie_features : list (list string)) : run :=
  ingest literal_eval 20000 start movie_features.

(** The number of rows the loop took from the reader. *)
Definition examined (movie_features : list (list string)) (r : run) : Z :=
  Z.of_nat (List.length movie_features) - Z.of_nat (List.length (unread r)).

(** What the loop body does with a row when the counter has not passed
    the limit. *)
Definition transform (literal_eval : string -> exn + pyval)
    (movie_feature : list string) : path :=
  body literal_eval 0 start movie_feature.

(** A row the loop accepts. *)
Definition valid (literal_eval : string -> exn + pyval)
    (movie_feature : list string) : Prop :=
  exists insert_data, transform literal_eval movie_feature = Inserted insert_data.

(** A row the loop skips with [continue]. *)
Definition rejected (literal_eval : string -> exn + pyval)
    (movie_feature : list string) : Prop :=
  transform literal_eval movie_feature = ShortRow
  \/ transform literal_eval movie_feature = LongRow.

(** A row on which no exception is raised. *)
Definition quiet (literal_eval : string -> exn + pyval)
    (movie_feature : list string) : Prop :=
  forall e, transform literal_eval movie_feature <> Raised e.

(** ** Sample rows *)

Module Sample.

Local Open Scope string_scope.

(** The 27 cells between the index column and the vector column. *)
Definition scalars : list string :=
  [ "[{'name': 'Tom Hanks'}]"; "[{'job': 'Director'}]"; "['toy', 'boy']";
    "False"; "Toy Story Collection"; "30000000"; "['Animation']";
    "http://toystory.disney.com/toy-story"; "862"; "en"; "Toy Story";
    "Led by Woody, Andy's toys live happily."; "21"; "/rhIRbceoE9l.jpg";
    "['Pixar']"; "['US']"; "1995-10-30"; "815040000"; "1"; "373554033";
    "81"; "['English']"; "Released"; "2001"; "Toy Story"; "7"; "5415" ].

(** A complete row: index, scalars, vector literal. *)
Definition row_with (vector : string) : list string :=
  ("0" :: scalars) ++ [vector].

Definition row : list string := row_with "[0.5, -1.25, 3e-2]".

(** A row whose vector literal has two components. *)
Definition two_component_row : list string := row_with "[1, 2]".

(** A row whose vector literal lacks the closing bracket. *)
Definition unclosed_row : list string := row_with "[1, 2".

(** A row with 28 cells. *)
Definition short_row : list string := "0" :: scalars.

(** A string of 10001 letters. *)
Definition long_text : string := PyStr.repeat_char "a"%char (Z.to_nat 10001).

(** A string of 10001 digits. *)
Definition long_digits : string := PyStr.repeat_char "7"%char (Z.to_nat 10001).

(** Strings of 4300 and of 4301 digits. *)
Definition digits_4300 : string := PyStr.repeat_char "7"%char 4300.

Definition digits_4301 : string := PyStr.repeat_char "7"%char 4301.

(** A row whose budget (column 5) has 10001 digits. *)
Definition long_digits_row : list string :=
  ("0" :: firstn 5 scalars) ++ long_digits :: skipn 6 scalars
    ++ ["[0.5, -1.25, 3e-2]"].

(** A row whose overview (column 11) is too long. *)
Definition long_row : list string :=
  ("0" :: firstn 11 scalars) ++ long_text :: skipn 12 scalars
    ++ ["[0.5, -1.25, 3e-2]"].

(** A row whose vector literal is too long. *)
Definition long_vector_row : list string := row_with long_text.

(** A row whose budget (column 5) is the superscript two. *)
Definition superscript : string := String (ascii_of_nat 178) EmptyString.

Definition superscript_row : list string :=
  ("0" :: firstn 5 scalars) ++ superscript :: skipn 6 scalars
    ++ ["[0.5, -1.25, 3e-2]"].

(** A row whose vector literal holds a quoted component. *)
Definition quoted_vector_row : list string := row_with "[1, '2']".

(** What the column loop stores for the scalar cells. *)
Definition stored_scalars : list pyval :=
  [ VStr "[{ name :  Tom Hanks }]"; VStr "[{ job :  Director }]";
    VStr "[ toy ,  boy ]"; VStr "False"; VStr "Toy Story Collection";
    VInt 30000000; VStr "[ Animation ]";
    VStr "http://toystory.disney.com/toy-story"; VInt 862; VStr "en";
    VStr "Toy Story"; VStr "Led by Woody, Andy s toys live happily.";
    VInt 21; VStr "/rhIRbceoE9l.jpg"; VStr "[ Pixar ]"; VStr "[ US ]";
    VStr "1995-10-30"; VStr "815040000"; VStr "1"; VInt 373554033;
    VInt 81; VStr "[ English ]"; VStr "Released"; VStr "2001";
    VStr "Toy Story"; VInt 7; VInt 5415 ].

(** The entity inserted for a complete row whose vector literal
    evaluates to [v]. *)
Definition entity_with (v : pyval) : entity :=
  map (fun data => [data]) (stored_scalars ++ [v]).

(** The rows of a file with [n] copies of the complete row. *)
Definition file (n : Z) : list (list string) := repeat row (Z.to_nat n).

End Sample.

(** ** [int] on an arbitrary string

    The user feature loop calls [int] without a guard.  [int] strips white
    space on both sides, takes one optional sign, and then wants decimal
    digits, single underscores being allowed between two digits.  As for
    [PyStr.int], more than [max_str_digits] digits are refused. *)

Module Builtins.

Import PyStr.

(** The characters [int] strips, below code point 256: tab, line feed,
    vertical tab, form feed, carriage return, blank, U+0085, U+00A0. *)
Definition isspace_char (c : ascii) : bool :=
  ((9 <=? code c) && (code c <=? 13))
  || (code c =? 32) || (code c =? 133) || (code c =? 160).

Fixpoint lstrip (s : list ascii) : list ascii :=
  match s with
  | c :: s' => if isspace_char c then lstrip s' else s
  | [] => []
  end.

Definition strip (s : list ascii) : list ascii :=
  rev (lstrip (rev (lstrip s))).

(** The digits after the first one, continuing the value [acc]. *)
Fixpoint more_digits (acc : Z) (s : list ascii) : option Z :=
  match s with
  | [] => Some acc
  | c :: s' =>
      if isdecimal_char c then more_digits (10 * acc + (code c - 48)) s'
      else if code c =? 95 then
        match s' with
        | d :: s'' =>
            if isdecimal_char d
            then more_digits (10 * acc + (code d - 48)) s''
            else None
        | [] => None
        end
      else None
  end.

Definition unsigned (s : list ascii) : option Z :=
  match s with
  | c :: s' => if isdecimal_char c then more_digits (code c - 48) s' else None
  | [] => None
  end.

Definition signed (s : list ascii) : option Z :=
  match s with
  | c :: s' =>
      if code c =? 45 then option_map Z.opp (unsigned s')
      else if code c =? 43 then unsigned s'
      else unsigned s
  | [] => None
  end.

(** The number of digits, which the limit is about: sign, underscores and
    white space do not count, leading zeros do. *)
Definition count_digits (s : list ascii) : Z :=
  Z.of_nat (List.length (filter isdecimal_char s)).

Definition int (x : string) : exn + Z :=
  let s := strip (list_ascii_of_string x) in
  match signed s with
  | Some n => if max_str_digits <? count_digits s then inl ValueError else inr n
  | None => inl ValueError
  end.

End Builtins.

(** ** The user feature loop (lines 195-211) *)

(** The way one iteration of the user loop ends: this loop has no
    [continue]. *)
Inductive user_path : Type :=
| UserLimitReached                     (* line 202, break *)
| UserRaised (e : exn)                 (* an exception leaves the loop *)
| UserInserted (insert_data : entity). (* lines 210-211 *)

Section UserIngest.

Variable literal_eval : string -> exn + pyval.

(** The constant of line 201 (20000 in the script). *)
Variable limit : Z.

(** Lines 197-211, one iteration.  The [for] statement unpacks the row
    into seven names and raises [ValueError] for any other number of
    cells, before the body runs. *)
Definition user_body (st : state) (row : list string) : user_path :=
  match row with
  | [ _; userId; user_feature_20230101; user_feature_20220101;
      user_feature_20200101; user_feature_20150101; user_feature_20100101 ] =>
      if limit <? it st then UserLimitReached
      else
        match Builtins.int userId with
        | inl e => UserRaised e
        | inr userId =>
            match literal_eval user_feature_20100101 with
            | inl e => UserRaised e
            | inr user_feature_20100101 =>
                UserInserted
                  [ [VInt userId]; [VStr user_feature_20230101];
                    [VStr user_feature_20220101]; [VStr user_feature_20200101];
                    [VStr user_feature_20150101]; [user_feature_20100101] ]
            end
        end
  | _ => UserRaised ValueError
  end.

(** Lines 197-211: the loop over the rows that follow the header. *)
Fixpoint user_ingest (st : state) (user_features : list (list string)) : run :=
  match user_features with
  | [] => mkRun st Exhausted []
  | row :: rest =>
      match user_body st row with
      | UserLimitReached => mkRun st Break rest
      | UserRaised e => mkRun st (Uncaught e) rest
      | UserInserted insert_data =>
          user_ingest (mkState (it st + 1) (insert_data :: inserted st)) rest
      end
  end.

End UserIngest.

(** ** The schemas (lines 68-111) *)

Inductive DataType : Type :=
| INT64
| VARCHAR
| FLOAT_VECTOR.

Record FieldSchema : Type := mkField {
  name : string;
  dtype : DataType;
  is_primary : bool;
  max_length : option Z;
  dim : option Z
}.

Definition movie_feature_fields : list FieldSchema :=
  [ mkField "cast" VARCHAR false (Some 10000) None;
    mkField "crew" VARCHAR false (Some 10000) None;
    mkField "keywords" VARCHAR false (Some 10000) None;
    mkField "adult" VARCHAR false (Some 10000) None;
    mkField "belongs_to_collection" VARCHAR false (Some 10000) None;
    mkField "budget" INT64 false None None;
    mkField "genres" VARCHAR false (Some 10000) None;
    mkField "homepage" VARCHAR false (Some 10000) None;
    mkField "id" INT64 true None None;
    mkField "original_language" VARCHAR false (Some 10000) None;
    mkField "original_title" VARCHAR false (Some 10000) None;
    mkField "overview" VARCHAR false (Some 10000) None;
    mkField "popularity" INT64 false None None;
    mkField "poster_path" VARCHAR false (Some 10000) None;
    mkField "production_companies" VARCHAR false (Some 10000) None;
    mkField "production_countries" VARCHAR false (Some 10000) None;
    mkField "release_date" VARCHAR false (Some 10000) None;
    mkField "release_date_timestamp" VARCHAR false (Some 10000) None;
    mkField "have_release_date" VARCHAR false (Some 10000) None;
    mkField "revenue" INT64 false None None;
    mkField "runtime" INT64 false None None;
    mkField "spoken_languages" VARCHAR false (Some 10000) None;
    mkField "status" VARCHAR false (Some 10000) None;
    mkField "tagline" VARCHAR false (Some 10000) None;
    mkField "title" VARCHAR false (Some 10000) None;
    mkField "vote_average" INT64 false None None;
    mkField "vote_count" INT64 false None None;
    mkField "movie_feature" FLOAT_VECTOR false None (Some 128) ]%string.

Definition user_feature_fields : list FieldSchema :=
  [ mkField "user_id" INT64 true None None;
    mkField "user_feature_20230101" VARCHAR false (Some 10000) None;
    mkField "user_feature_20220101" VARCHAR false (Some 10000) None;
    mkField "user_feature_20200101" VARCHAR false (Some 10000) None;
    mkField "user_feature_20150101" VARCHAR false (Some 10000) None;
    mkField "user_feature_20100101" FLOAT_VECTOR false None (Some 128) ]%string.

(** The positions, from [col] on, of the fields declared [INT64]. *)
Fixpoint int64_positions (col : nat) (fields : list FieldSchema) : list nat :=
  match fields with
  | [] => []
  | f :: rest =>
      match dtype f with
      | INT64 => col :: int64_positions (S col) rest
      | _ => int64_positions (S col) rest
      end
  end.

(** ** Auxiliary notions for the properties below *)

(** The entities of the rows the movie loop accepts, in the order of the
    rows. *)
Definition accepted (literal_eval : string -> exn + pyval)
    (rows : list (list string)) : list entity :=
  flat_map
    (fun row =>
       match transform literal_eval row with
       | Inserted insert_data => [insert_data]
       | _ => []
       end)
    rows.

(** The characters of a string, none of which is a single quote. *)
Definition quote_free (s : string) : bool :=
  PyStr.all_chars (fun c => negb (PyStr.code c =? 39)) s.

(** What the column loop can leave in [data_arr]: a natural number, or a
    string without single quote of at most 10000 characters. *)
Definition stored_ok (data : pyval) : Prop :=
  match data with
  | VInt n => 0 <= n
  | VStr s => quote_free s = true /\ PyStr.len s <= 10000
  | _ => False
  end.

(** The number a string of decimal digits denotes, digit by digit: the
    first digit weighs ten to the number of digits after it. *)
Fixpoint positional (s : string) : Z :=
  match s with
  | EmptyString => 0
  | String c s' => (PyStr.code c - 48) * 10 ^ PyStr.len s' + positional s'
  end.

(** A character [int] does not strip. *)
Definition nonspace (c : ascii) : Prop := Builtins.isspace_char c = false.

(** A row with fewer than 29 cells. *)
Definition short (row : list string) : Prop := (List.length row < 29)%nat.

(** Sample user rows. *)
Module UserSample.

Local Open Scope string_scope.

Definition row : list string :=
  [ "0"; " -42 "; "[0.1, 'a']"; "[0.2]"; "[0.3]"; "[0.4]"; "[0.5, -1.25]" ].

(** A user row with a feature of 10001 characters. *)
Definition long_row : list string :=
  [ "1"; "7"; Sample.long_text; "[0.2]"; "[0.3]"; "[0.4]"; "[1, 2]" ].

(** A user row with six cells. *)
Definition six_cells : list string :=
  [ "0"; "7"; "[0.1]"; "[0.2]"; "[0.3]"; "[0.4]" ].

(** A user row whose id is not an integer. *)
Definition bad_id : list string :=
  [ "2"; "7.0"; "[0.1]"; "[0.2]"; "[0.3]"; "[0.4]"; "[1, 2]" ].

End UserSample.

(** A movie row whose popularity (column 12) is written with a decimal
    point. *)
Definition decimal_point_row : list string :=
  ("0"%string :: firstn 12 Sample.scalars)
    ++ "21.946943"%string :: skipn 13 Sample.scalars
    ++ ["[0.5, -1.25, 3e-2]"%string].

(** A movie row of 30 cells: one cell more than the schema has fields for. *)
Definition wide_row : list string :=
  ("0"%string :: Sample.scalars) ++ ["extra"%string; "[1, 2]"%string].

(** ** Properties of the string methods *)

Section StringFacts.

Import PyStr.

Lemma all_chars_weaken (p q : ascii -> bool) (s : string) :
  (forall c, p c = true -> q c = true) ->
  all_chars p s = true -> all_chars q s = true.
Proof.
  intros Hpq. induction s as [|c s IH]; simpl; [reflexivity|].
  intros H. apply andb_true_iff in H as [Hc Hs].
  apply andb_true_iff. split; [apply Hpq, Hc | apply IH, Hs].
Qed.

Lemma isdecimal_isnumeric (s : string) :
  isdecimal s = true -> isnumeric s = true.
Proof.
  unfold isdecimal, isnumeric. intros H.
  apply andb_true_iff in H as [Hn Hd]. apply andb_true_iff. split; [exact Hn|].
  apply all_chars_weaken with (p := isdecimal_char); [|exact Hd].
  intros c Hc. unfold isnumeric_char. rewrite Hc. reflexivity.
Qed.

Lemma int_isdecimal (s : string) (n : Z) :
  int s = inr n ->
  isdecimal s = true /\ len s <= 4300 /\ n = digits_value 0 s.
Proof.
  unfold int, max_str_digits. destruct (isdecimal s); [|discriminate].
  destruct (4300 <? len s) eqn:E; [discriminate|].
  intros H. injection H as <-. apply Z.ltb_ge in E. repeat split. exact E.
Qed.

Lemma len_String (c : ascii) (s : string) : len (String c s) = len s + 1.
Proof. unfold len. simpl String.length. lia. Qed.

Lemma len_nonneg (s : string) : 0 <= len s.
Proof. unfold len. lia. Qed.

Lemma replace_quote_decimal (s : string) :
  all_chars isdecimal_char s = true -> replace_quote s = s.
Proof.
  induction s as [|c s IH]; simpl; [reflexivity|].
  intros H. apply andb_true_iff in H as [Hc Hs].
  rewrite (IH Hs). unfold isdecimal_char in Hc.
  apply andb_true_iff in Hc as [Hlo _]. apply Z.leb_le in Hlo.
  destruct (code c =? 39) eqn:E; [apply Z.eqb_eq in E; lia | reflexivity].
Qed.

Lemma replace_quote_length (s : string) :
  len (replace_quote s) = len s.
Proof.
  unfold len. f_equal. induction s as [|c s IH]; simpl; congruence.
Qed.

End StringFacts.

(** ** Properties of the column loop *)

Lemma in_numeric_columns_In (col : nat) :
  in_numeric_columns col = true <-> In col numeric_columns_idx.
Proof.
  unfold in_numeric_columns. rewrite existsb_exists. split.
  - intros [x [Hin Heq]]. apply Nat.eqb_eq in Heq. subst. exact Hin.
  - intros Hin. exists col. split; [exact Hin | apply Nat.eqb_refl].
Qed.

Lemma in_numeric_columns_bound (col : nat) :
  (27 <= col)%nat -> in_numeric_columns col = false.
Proof.
  intros H. destruct (in_numeric_columns col) eqn:E; [|reflexivity].
  apply in_numeric_columns_In in E. simpl in E. lia.
Qed.

Lemma convert_coerced (col : nat) (cell : string) :
  PyStr.isdecimal cell = true -> in_numeric_columns col = true ->
  PyStr.len cell <= 4300 ->
  convert col cell = Store (VInt (PyStr.digits_value 0 cell)).
Proof.
  intros Hd Hc Hl. unfold convert, PyStr.int, PyStr.max_str_digits.
  rewrite (isdecimal_isnumeric _ Hd), Hc, Hd.
  apply Z.ltb_ge in Hl. rewrite Hl. reflexivity.
Qed.

Lemma convert_capped (col : nat) (cell : string) :
  PyStr.isdecimal cell = true -> in_numeric_columns col = true ->
  4300 < PyStr.len cell ->
  convert col cell = CellRaise ValueError.
Proof.
  intros Hd Hc Hl. unfold convert, PyStr.int, PyStr.max_str_digits.
  rewrite (isdecimal_isnumeric _ Hd), Hc, Hd.
  apply Z.ltb_lt in Hl. rewrite Hl. reflexivity.
Qed.

(** The value [int] computes from left to right is the number the digits
    denote. *)
Lemma digits_value_positional (s : string) :
  forall acc : Z,
    PyStr.digits_value acc s = acc * 10 ^ PyStr.len s + positional s.
Proof.
  induction s as [|c s IH]; intros acc;
    cbn [PyStr.digits_value positional].
  - change (PyStr.len EmptyString) with 0. lia.
  - rewrite IH, len_String, Z.pow_add_r by (try apply len_nonneg; lia).
    lia.
Qed.

Lemma convert_varchar (col : nat) (cell : string) :
  PyStr.isnumeric cell && in_numeric_columns col = false ->
  convert col cell =
    if 10000 <? PyStr.len (PyStr.replace_quote cell) then LongData
    else Store (VStr (PyStr.replace_quote cell)).
Proof. intros H. unfold convert. rewrite H. reflexivity. Qed.

Lemma convert_int_inv (col : nat) (cell : string) (n : Z) :
  convert col cell = Store (VInt n) ->
  PyStr.isdecimal cell = true /\ in_numeric_columns col = true
  /\ PyStr.len cell <= 4300 /\ n = PyStr.digits_value 0 cell.
Proof.
  unfold convert.
  destruct (PyStr.isnumeric cell && in_numeric_columns col) eqn:G.
  - apply andb_true_iff in G as [_ Hc].
    destruct (PyStr.int cell) as [e|m] eqn:Hi; [discriminate|].
    intros H. injection H as <-.
    destruct (int_isdecimal _ _ Hi) as [H1 [H2 H3]].
    repeat split; assumption.
  - destruct (10000 <? _); discriminate.
Qed.

Lemma columns_nth (cells : list string) :
  forall (col0 : nat) (data_arr : list pyval),
    columns col0 cells = Completed data_arr ->
    forall (i : nat) (cell : string),
      nth_error cells i = Some cell ->
      exists data,
        convert (col0 + i) cell = Store data /\ nth_error data_arr i = Some data.
Proof.
  induction cells as [|c rest IH]; intros col0 data_arr H i cell Hn.
  - destruct i; discriminate.
  - simpl in H. destruct (convert col0 c) as [d| |e] eqn:Hc; try discriminate.
    destruct (columns (S col0) rest) as [arr| |e] eqn:Hr; try discriminate.
    injection H as <-. destruct i as [|i]; simpl in Hn.
    + injection Hn as <-. exists d. rewrite Nat.add_0_r. split; [exact Hc | reflexivity].
    + destruct (IH _ _ Hr _ _ Hn) as [data [H1 H2]].
      exists data. split; [|exact H2].
      replace (col0 + S i)%nat with (S col0 + i)%nat by lia. exact H1.
Qed.

Lemma columns_app (pre post : list string) :
  forall col0 : nat,
    columns col0 (pre ++ post) =
      match columns col0 pre with
      | Completed front =>
          match columns (col0 + List.length pre) post with
          | Completed back => Completed (front ++ back)
          | stopped => stopped
          end
      | stopped => stopped
      end.
Proof.
  induction pre as [|c pre IH]; intros col0; simpl.
  - rewrite Nat.add_0_r. destruct (columns col0 post); reflexivity.
  - destruct (convert col0 c) as [d| |e]; try reflexivity.
    rewrite IH. replace (col0 + S (List.length pre))%nat
      with (S col0 + List.length pre)%nat by lia.
    destruct (columns (S col0) pre) as [front| |e]; try reflexivity.
    destruct (columns (S col0 + List.length pre) post); reflexivity.
Qed.

Lemma columns_complete_iff (cells : list string) :
  forall (col0 : nat) (data_arr : list pyval),
    columns col0 cells = Completed data_arr <->
    (List.length data_arr = List.length cells
     /\ forall (i : nat) (c : string),
          nth_error cells i = Some c ->
          exists data,
            convert (col0 + i) c = Store data
            /\ nth_error data_arr i = Some data).
Proof.
  induction cells as [|c rest IH]; intros col0 data_arr; split.
  - intros H. simpl in H. injection H as <-. split; [reflexivity|].
    intros i c' Hn. destruct i; discriminate.
  - intros [Hl _]. destruct data_arr; [reflexivity | discriminate].
  - intros H. split; [|exact (columns_nth _ _ _ H)].
    simpl in H. destruct (convert col0 c) as [d| |e]; try discriminate.
    destruct (columns (S col0) rest) as [arr| |e] eqn:Hr; try discriminate.
    injection H as <-. simpl. f_equal.
    exact (proj1 (proj1 (IH (S col0) arr) Hr)).
  - intros [Hl H]. destruct data_arr as [|a arr]; [discriminate|].
    simpl in Hl. injection Hl as Hl.
    destruct (H 0%nat c eq_refl) as [d [Hd Ha]].
    rewrite Nat.add_0_r in Hd. simpl in Ha. injection Ha as ->.
    simpl. rewrite Hd.
    assert (Hrest : columns (S col0) rest = Completed arr).
    { apply IH. split; [exact Hl|]. intros i c' Hn.
      destruct (H (S i) c' Hn) as [d' [H1 H2]].
      exists d'. split; [|exact H2].
      replace (S col0 + i)%nat with (col0 + S i)%nat by lia. exact H1. }
    rewrite Hrest. reflexivity.
Qed.

(** C1, as amended.  In the column loop a cell is turned into an integer
    exactly when it consists only of decimal digits, at most 4300 of them,
    and its position is one of 5, 8, 12, 19, 20, 25, 26; the integer is the
    number the digits denote.  A digit-only cell at any other position is
    not turned into an integer but takes the string branch (it is the
    sanitized string, which is the cell itself, subject to the length
    check).  The loop completes exactly when every cell has its value
    stored, and then position [i] of the result holds what the loop body
    stored for the cell at position [i]. *)
Theorem numeric_coercion_is_position_gated (col : nat) (cell : string) :
  (forall n,
     convert col cell = Store (VInt n) <->
     (PyStr.isdecimal cell = true /\ PyStr.len cell <= 4300
      /\ In col numeric_columns_idx /\ n = positional cell))
  /\ (PyStr.isdecimal cell = true -> ~ In col numeric_columns_idx ->
      PyStr.replace_quote cell = cell /\
      convert col cell =
        if 10000 <? PyStr.len cell then LongData else Store (VStr cell))
  /\ (forall cells data_arr,
        columns 0 cells = Completed data_arr <->
        (List.length data_arr = List.length cells
         /\ forall i c,
              nth_error cells i = Some c ->
              exists data,
                convert i c = Store data /\ nth_error data_arr i = Some data)).
Proof.
  assert (Hpos : PyStr.digits_value 0 cell = positional cell).
  { rewrite digits_value_positional. lia. }
  split; [|split].
  - intros n. split.
    + intros Hn. apply convert_int_inv in Hn as [Hd [Hc [Hl Hv]]].
      repeat split; try assumption.
      * apply in_numeric_columns_In, Hc.
      * rewrite Hv. exact Hpos.
    + intros [Hd [Hl [Hc ->]]]. rewrite <- Hpos.
      apply convert_coerced; [exact Hd | apply in_numeric_columns_In, Hc | exact Hl].
  - intros Hd Hc.
    assert (Hr : PyStr.replace_quote cell = cell).
    { apply replace_quote_decimal. unfold PyStr.isdecimal in Hd.
      apply andb_true_iff in Hd as [_ Hd]. exact Hd. }
    split; [exact Hr|].
    rewrite convert_varchar.
    + rewrite Hr. reflexivity.
    + apply andb_false_iff. right.
      destruct (in_numeric_columns col) eqn:E; [|reflexivity].
      apply in_numeric_columns_In in E. contradiction.
  - intros cells data_arr. exact (columns_complete_iff cells 0 data_arr).
Qed.

(** C1, on the sample row: the budget at position 5 becomes the integer its
    digits denote, the digit-only timestamp at position 17 stays a string,
    and the column loop over the scalar cells completes. *)
Lemma numeric_coercion_is_position_gated_witness :
  convert 5 "30000000" = Store (VInt 30000000)
  /\ convert 17 "815040000" = Store (VStr "815040000")
  /\ columns 0 Sample.scalars = Completed Sample.stored_scalars.
Proof.
  split; [|split].
  - apply (proj2 (proj1 (numeric_coercion_is_position_gated 5 "30000000")
                    30000000)).
    repeat split; [vm_compute; discriminate | simpl; auto].
  - destruct (numeric_coercion_is_position_gated 17 "815040000") as [_ [H _]].
    destruct H as [_ H].
    + reflexivity.
    + simpl. lia.
    + exact H.
  - apply (proj2 (proj2 (proj2 (numeric_coercion_is_position_gated 0 ""))
                    Sample.scalars Sample.stored_scalars)).
    split; [reflexivity|].
    intros i c Hn.
    do 27 (destruct i as [|i];
           [injection Hn as <-; eexists; split; reflexivity|]).
    destruct i; discriminate.
Defined.

(** C1 as stated fails on a cell of 4301 digits at position 5: it consists
    only of decimal digits and its position is a numeric one, yet [int]
    refuses it, and the cell is not turned into an integer. *)
Lemma long_digit_cell_is_not_coerced :
  PyStr.isdecimal Sample.digits_4301 = true
  /\ In 5%nat numeric_columns_idx
  /\ convert 5 Sample.digits_4301 = CellRaise ValueError
  /\ ~ (exists n, convert 5 Sample.digits_4301 = Store (VInt n)).
Proof.
  assert (H : convert 5 Sample.digits_4301 = CellRaise ValueError)
    by (vm_compute; reflexivity).
  split; [vm_compute; reflexivity|]. split; [simpl; auto|].
  split; [exact H|]. intros [n Hn]. rewrite H in Hn. discriminate.
Qed.

(** ** Properties of the row loop *)

Section LoopFacts.

Variable literal_eval : string -> exn + pyval.

Lemma eval_last_cons (data next : pyval) (rest : list pyval) :
  eval_last literal_eval (data :: next :: rest) =
    match eval_last literal_eval (next :: rest) with
    | inr rest' => inr (data :: rest')
    | inl e => inl e
    end.
Proof. destruct data; reflexivity. Qed.

Lemma eval_last_app (front : list pyval) (s : string) :
  eval_last literal_eval (front ++ [VStr s]) =
    match literal_eval s with
    | inr v => inr (front ++ [v])
    | inl e => inl e
    end.
Proof.
  induction front as [|data front IH].
  - reflexivity.
  - destruct front as [|next front].
    + simpl app. rewrite eval_last_cons. simpl.
      destruct (literal_eval s); reflexivity.
    + change ((data :: next :: front) ++ [VStr s])
        with (data :: next :: (front ++ [VStr s])).
      rewrite eval_last_cons.
      change (next :: front ++ [VStr s]) with ((next :: front) ++ [VStr s]).
      rewrite IH. destruct (literal_eval s); reflexivity.
Qed.

Lemma body_short (limit : Z) (st : state) (row : list string) :
  (List.length row < 29)%nat -> body literal_eval limit st row = ShortRow.
Proof.
  intros H. unfold body. apply Nat.ltb_lt in H. rewrite H. reflexivity.
Qed.

Lemma body_over_limit (limit : Z) (st : state) (row : list string) :
  (29 <= List.length row)%nat -> limit < it st ->
  body literal_eval limit st row = LimitReached.
Proof.
  intros H Hl. unfold body. apply Nat.ltb_ge in H. rewrite H.
  apply Z.ltb_lt in Hl. rewrite Hl. reflexivity.
Qed.

Lemma body_under_limit (limit : Z) (st : state) (row : list string) :
  it st <= limit ->
  body literal_eval limit st row = transform literal_eval row.
Proof.
  intros Hl. unfold transform, body.
  destruct (List.length row <? 29)%nat; [reflexivity|].
  apply Z.ltb_ge in Hl. rewrite Hl. reflexivity.
Qed.

Lemma transform_long_enough (row : list string) :
  transform literal_eval row <> ShortRow -> (29 <= List.length row)%nat.
Proof.
  intros H. destruct (Nat.lt_ge_cases (List.length row) 29) as [Hs|Hs];
    [|exact Hs].
  exfalso. apply H. apply body_short. exact Hs.
Qed.

Lemma transform_columns (row : list string) :
  (29 <= List.length row)%nat ->
  transform literal_eval row =
    match columns 0 (tl row) with
    | LongDataExists => LongRow
    | LoopRaise e => Raised e
    | Completed data_arr =>
        match eval_last literal_eval data_arr with
        | inl e => Raised e
        | inr data_arr => Inserted (map (fun data => [data]) data_arr)
        end
    end.
Proof.
  intros H. unfold transform, body. apply Nat.ltb_ge in H. rewrite H.
  reflexivity.
Qed.

(** The position of the last cell is never one of the numeric columns. *)
Lemma last_position (row front : list string) (cell : string) :
  (29 <= List.length row)%nat -> tl row = front ++ [cell] ->
  (27 <= List.length front)%nat.
Proof.
  intros H Ht. assert (Hl : List.length (tl row) = List.length (front ++ [cell]))
    by (rewrite Ht; reflexivity).
  rewrite length_app in Hl. simpl in Hl.
  destruct row as [|c row]; simpl in *; lia.
Qed.

(** What the loop body does with a row, read off its last cell. *)
Lemma transform_last_cell (row front : list string) (cell : string) :
  (29 <= List.length row)%nat -> tl row = front ++ [cell] ->
  transform literal_eval row =
    match columns 0 front with
    | Completed data_arr =>
        if 10000 <? PyStr.len (PyStr.replace_quote cell) then LongRow
        else
          match literal_eval (PyStr.replace_quote cell) with
          | inr v => Inserted (map (fun data => [data]) (data_arr ++ [v]))
          | inl e => Raised e
          end
    | LongDataExists => LongRow
    | LoopRaise e => Raised e
    end.
Proof.
  intros H Ht. rewrite (transform_columns row H), Ht, columns_app.
  pose proof (last_position row front cell H Ht) as Hp.
  destruct (columns 0 front) as [data_arr| |e]; try reflexivity.
  simpl columns. rewrite convert_varchar.
  2:{ apply andb_false_iff. right. apply in_numeric_columns_bound. exact Hp. }
  destruct (10000 <? PyStr.len (PyStr.replace_quote cell)); [reflexivity|].
  rewrite eval_last_app.
  destruct (literal_eval (PyStr.replace_quote cell)); reflexivity.
Qed.

(** A cell that takes the string branch and is too long stops the column
    loop, unless an earlier cell raised. *)
Lemma columns_long (pre post : list string) (cell : string) :
  (forall e, columns 0 pre <> LoopRaise e) ->
  PyStr.isnumeric cell && in_numeric_columns (List.length pre) = false ->
  10000 < PyStr.len (PyStr.replace_quote cell) ->
  columns 0 (pre ++ cell :: post) = LongDataExists.
Proof.
  intros Hq Hg Hlen. rewrite columns_app.
  destruct (columns 0 pre) as [front| |e]; [|reflexivity|destruct (Hq e); reflexivity].
  simpl. rewrite (convert_varchar _ _ Hg).
  apply Z.ltb_lt in Hlen. rewrite Hlen. reflexivity.
Qed.

(** Such a cell never lets the column loop complete. *)
Lemma columns_long_incomplete (pre post : list string) (cell : string) :
  PyStr.isnumeric cell && in_numeric_columns (List.length pre) = false ->
  10000 < PyStr.len (PyStr.replace_quote cell) ->
  forall data_arr, columns 0 (pre ++ cell :: post) <> Completed data_arr.
Proof.
  intros Hg Hlen data_arr. rewrite columns_app.
  destruct (columns 0 pre) as [front| |e]; try discriminate.
  simpl. rewrite (convert_varchar _ _ Hg).
  apply Z.ltb_lt in Hlen. rewrite Hlen. discriminate.
Qed.

Section WithLimit.

Variable limit : Z.

Lemma ingest_skip (st : state) (row : list string) (rest : list (list string)) :
  body literal_eval limit st row = ShortRow
  \/ body literal_eval limit st row = LongRow ->
  ingest literal_eval limit st (row :: rest) =
    ingest literal_eval limit st rest.
Proof. intros [H|H]; simpl; rewrite H; reflexivity. Qed.

Lemma ingest_raise (st : state) (row : list string)
    (rest : list (list string)) (e : exn) :
  body literal_eval limit st row = Raised e ->
  ingest literal_eval limit st (row :: rest) = mkRun st (Uncaught e) rest.
Proof. intros H; simpl; rewrite H; reflexivity. Qed.

(** The counter counts the inserted entities and never passes
    [limit + 1]. *)
Lemma ingest_counter (rows : list (list string)) :
  forall st : state,
    let r := ingest literal_eval limit st rows in
    it (final r) - it st =
      Z.of_nat (List.length (inserted (final r)))
      - Z.of_nat (List.length (inserted st))
    /\ it st <= it (final r)
    /\ it (final r) <= Z.max (it st) (limit + 1).
Proof.
  induction rows as [|row rest IH]; intros st; simpl.
  - lia.
  - destruct (body literal_eval limit st row) as [| | |e|d] eqn:Hb;
      simpl; try apply IH; try lia.
    assert (Hl : it st <= limit).
    { unfold body in Hb. destruct (List.length row <? 29)%nat; [discriminate|].
      destruct (limit <? it st) eqn:E; [discriminate|].
      apply Z.ltb_ge in E. exact E. }
    specialize (IH (mkState (it st + 1) (d :: inserted st))).
    cbn [it inserted List.length] in IH. destruct IH as [H1 [H2 H3]]. lia.
Qed.

(** Rows that are all skipped are all read, and change nothing. *)
Lemma ingest_rejected (rows : list (list string)) (st : state) :
  it st <= limit ->
  Forall (rejected literal_eval) rows ->
  ingest literal_eval limit st rows = mkRun st Exhausted [].
Proof.
  intros Hl H. induction H as [|row rest Hr _ IH]; [reflexivity|].
  rewrite ingest_skip; [exact IH|].
  rewrite body_under_limit by exact Hl. exact Hr.
Qed.

(** Rows on which nothing is raised: the run ends at the end of the
    source with every row read, or at the limit. *)
Lemma ingest_quiet (rows : list (list string)) :
  forall st : state,
    Forall (quiet literal_eval) rows ->
    let r := ingest literal_eval limit st rows in
    (how r = Exhausted /\ unread r = [])
    \/ (how r = Break /\ limit < it (final r)).
Proof.
  induction rows as [|row rest IH]; intros st H; simpl.
  - left. split; reflexivity.
  - inversion H as [|? ? Hq Hrest]; subst.
    destruct (body literal_eval limit st row) as [| | |e|d] eqn:Hb;
      try (apply IH; exact Hrest).
    + right. simpl. split; [reflexivity|].
      unfold body in Hb. destruct (List.length row <? 29)%nat; [discriminate|].
      destruct (limit <? it st) eqn:E; [apply Z.ltb_lt in E; exact E|].
      destruct (columns 0 (tl row)) as [a| |e]; try discriminate.
      destruct (eval_last literal_eval a); discriminate.
    + exfalso.
      destruct (Z.le_gt_cases (it st) limit) as [Hl|Hl].
      * rewrite body_under_limit in Hb by exact Hl. exact (Hq e Hb).
      * unfold body in Hb. destruct (List.length row <? 29)%nat; [discriminate|].
        apply Z.ltb_lt in Hl. rewrite Hl in Hb. discriminate.
Qed.

(** Valid rows, more of them than the counter still admits: the loop
    inserts until the counter is [limit + 1], takes one more row and
    breaks on it. *)
Lemma ingest_valid_break (rows : list (list string)) :
  forall st : state,
    Forall (valid literal_eval) rows ->
    it st <= limit + 1 ->
    limit + 1 - it st < Z.of_nat (List.length rows) ->
    let r := ingest literal_eval limit st rows in
    it (final r) = limit + 1
    /\ how r = Break
    /\ unread r = skipn (Z.to_nat (limit + 2 - it st)) rows
    /\ Z.of_nat (List.length (inserted (final r))) =
         Z.of_nat (List.length (inserted st)) + (limit + 1 - it st).
Proof.
  induction rows as [|row rest IH]; intros st Hv Hle Hlen.
  - simpl in Hlen. lia.
  - inversion Hv as [|? ? [d Hd] Hrest]; subst.
    assert (Hrow : (29 <= List.length row)%nat).
    { apply transform_long_enough. rewrite Hd. discriminate. }
    destruct (Z.le_gt_cases (it st) limit) as [Hl|Hl].
    + cbv zeta. simpl ingest. rewrite body_under_limit by exact Hl. rewrite Hd.
      specialize (IH (mkState (it st + 1) (d :: inserted st)) Hrest).
      simpl it in IH. simpl inserted in IH.
      rewrite length_cons, Nat2Z.inj_succ in Hlen.
      destruct IH as [H1 [H2 [H3 H4]]]; [lia|lia|].
      repeat split; [exact H1|exact H2| |].
      * rewrite H3.
        replace (limit + 2 - it st) with (Z.succ (limit + 2 - (it st + 1))) by lia.
        rewrite Z2Nat.inj_succ by lia. reflexivity.
      * rewrite H4. rewrite length_cons, Nat2Z.inj_succ. lia.
    + cbv zeta. simpl ingest. rewrite body_over_limit by assumption.
      simpl. replace (limit + 2 - it st) with 1 by lia.
      repeat split; try reflexivity; lia.
Qed.

End WithLimit.

End LoopFacts.

(** ** The sample rows under the loop *)

Lemma sample_scalars_stored :
  columns 0 Sample.scalars = Completed Sample.stored_scalars.
Proof. vm_compute. reflexivity. Qed.

Lemma sample_row_valid : valid Literal.literal_eval Sample.row.
Proof. eexists. vm_compute. reflexivity. Qed.

Lemma sample_file_valid (n : Z) :
  Forall (valid Literal.literal_eval) (Sample.file n).
Proof.
  apply Forall_forall. intros row Hin. unfold Sample.file in Hin.
  apply repeat_spec in Hin. subst row. exact sample_row_valid.
Qed.

Lemma sample_file_length (n : Z) :
  0 <= n -> Z.of_nat (List.length (Sample.file n)) = n.
Proof.
  intros H. unfold Sample.file. rewrite repeat_length. apply Z2Nat.id, H.
Qed.

Example convert_budget : convert 5 "30000000" = Store (VInt 30000000).
Proof. reflexivity. Qed.

Example convert_leading_zero : convert 8 "007" = Store (VInt 7).
Proof. reflexivity. Qed.

Example convert_empty_cell : convert 5 "" = Store (VStr "").
Proof. reflexivity. Qed.

Example convert_decimal_point :
  convert 12 "21.946943" = Store (VStr "21.946943").
Proof. reflexivity. Qed.

Example convert_quote : convert 10 "o'k" = Store (VStr "o k").
Proof. reflexivity. Qed.

Example convert_superscript :
  PyStr.isnumeric Sample.superscript = true
  /\ convert 5 Sample.superscript = CellRaise ValueError
  /\ convert 6 Sample.superscript = Store (VStr Sample.superscript).
Proof. repeat split; reflexivity. Qed.

Example sample_short_row :
  transform Literal.literal_eval Sample.short_row = ShortRow.
Proof. vm_compute. reflexivity. Qed.

Example sample_long_row :
  transform Literal.literal_eval Sample.long_row = LongRow.
Proof. vm_compute. reflexivity. Qed.

Example sample_superscript_row :
  transform Literal.literal_eval Sample.superscript_row = Raised ValueError.
Proof. vm_compute. reflexivity. Qed.

(** ** The limit *)

(** C2, as amended.  With limit [L] and [L + 5] valid rows the loop inserts
    exactly [L + 1] rows; it then takes row [L + 2] from the reader, breaks
    on it without transforming or inserting it, and leaves the last 3 rows
    unread. *)
Theorem limit_boundary (literal_eval : string -> exn + pyval) (L : Z)
    (rows : list (list string)) :
  0 <= L ->
  Z.of_nat (List.length rows) = L + 5 ->
  Forall (valid literal_eval) rows ->
  it (final (ingest literal_eval L start rows)) = L + 1
  /\ Z.of_nat (List.length (inserted (final (ingest literal_eval L start rows))))
       = L + 1
  /\ how (ingest literal_eval L start rows) = Break
  /\ examined rows (ingest literal_eval L start rows) = L + 2
  /\ unread (ingest literal_eval L start rows) = skipn (Z.to_nat (L + 2)) rows
  /\ List.length (unread (ingest literal_eval L start rows)) = 3%nat.
Proof.
  intros HL Hlen Hv.
  destruct (ingest_valid_break literal_eval L rows start Hv) as [H1 [H2 [H3 H4]]];
    change (it start) with 0; try lia.
  change (it start) with 0 in H3.
  change (inserted start) with (@nil entity) in H4.
  change (it start) with 0 in H4. cbn [List.length] in H4.
  replace (L + 2 - 0) with (L + 2) in H3 by lia.
  assert (Hu : List.length (unread (ingest literal_eval L start rows)) = 3%nat).
  { rewrite H3, length_skipn. lia. }
  split; [exact H1|]. split; [lia|]. split; [exact H2|].
  split; [unfold examined; rewrite Hu; lia|]. split; [exact H3 | exact Hu].
Qed.

(** C2, on six copies of the sample row with limit 1. *)
Lemma limit_boundary_witness :
  0 <= 1
  /\ Z.of_nat (List.length (Sample.file 6)) = 1 + 5
  /\ it (final (ingest Literal.literal_eval 1 start (Sample.file 6))) = 1 + 1
  /\ examined (Sample.file 6) (ingest Literal.literal_eval 1 start (Sample.file 6))
       = 1 + 2
  /\ List.length (unread (ingest Literal.literal_eval 1 start (Sample.file 6)))
       = 3%nat.
Proof.
  assert (H0 : 0 <= 1) by lia.
  assert (H1 : Z.of_nat (List.length (Sample.file 6)) = 1 + 5) by reflexivity.
  assert (H2 : Forall (valid Literal.literal_eval) (Sample.file 6)).
  { repeat constructor; eexists; vm_compute; reflexivity. }
  destruct (limit_boundary Literal.literal_eval 1 (Sample.file 6) H0 H1 H2)
    as [A [_ [_ [B [_ C]]]]].
  repeat split; assumption.
Defined.

Lemma movie_ingest_unfold (literal_eval : string -> exn + pyval)
    (rows : list (list string)) :
  movie_ingest literal_eval rows = ingest literal_eval 20000 start rows.
Proof. reflexivity. Qed.

(** C2 as stated fails on the script's own limit: of 20005 valid rows the
    loop inserts 20001, but it takes 20002 rows from the reader, not 20001,
    and leaves 3 unread, not 4. *)
Lemma limit_boundary_reads_one_more_row :
  it (final (movie_ingest Literal.literal_eval (Sample.file 20005)))
    = 20000 + 1
  /\ examined (Sample.file 20005)
       (movie_ingest Literal.literal_eval (Sample.file 20005)) = 20000 + 2
  /\ List.length (unread (movie_ingest Literal.literal_eval (Sample.file 20005)))
       = 3%nat
  /\ ~ (examined (Sample.file 20005)
          (movie_ingest Literal.literal_eval (Sample.file 20005)) = 20000 + 1
        /\ List.length
             (unread (movie_ingest Literal.literal_eval (Sample.file 20005)))
           = 4%nat).
Proof.
  rewrite movie_ingest_unfold.
  assert (Hlen : Z.of_nat (List.length (Sample.file 20005)) = 20005).
  { apply sample_file_length. discriminate. }
  destruct (ingest_valid_break Literal.literal_eval 20000 (Sample.file 20005)
              start (sample_file_valid 20005)) as [H1 [_ [H3 _]]].
  - change (it start) with 0. discriminate.
  - rewrite Hlen. change (it start) with 0. reflexivity.
  - change (20000 + 2 - it start) with 20002 in H3.
    assert (Hu : Z.of_nat (List.length (unread
        (ingest Literal.literal_eval 20000 start (Sample.file 20005)))) = 3).
    { rewrite H3, length_skipn, Nat2Z.inj_sub.
      - rewrite Hlen, Z2Nat.id by discriminate. reflexivity.
      - apply Nat2Z.inj_le. rewrite Hlen, Z2Nat.id by discriminate. discriminate. }
    assert (He : examined (Sample.file 20005)
        (ingest Literal.literal_eval 20000 start (Sample.file 20005)) = 20000 + 2).
    { unfold examined. rewrite Hu, Hlen. reflexivity. }
    split; [exact H1|]. split; [exact He|]. split.
    + apply Nat2Z.inj. exact Hu.
    + intros [Hx _]. rewrite He in Hx. discriminate.
Qed.

(** ** The vector cell *)

(** C3, as amended.  Once the column loop has stored the other cells and
    the sanitized vector cell is not too long, the row is inserted exactly
    when [literal_eval] returns a value for the sanitized cell, and that
    value becomes the last field whatever its shape or length; when
    [literal_eval] raises, the exception ends the run at that row. *)
Theorem vector_cell_literal (literal_eval : string -> exn + pyval)
    (limit : Z) (st : state) (row front : list string) (cell : string)
    (data_arr : list pyval) (rest : list (list string)) :
  (29 <= List.length row)%nat ->
  it st <= limit ->
  tl row = front ++ [cell] ->
  columns 0 front = Completed data_arr ->
  PyStr.len (PyStr.replace_quote cell) <= 10000 ->
  match literal_eval (PyStr.replace_quote cell) with
  | inr v =>
      body literal_eval limit st row =
        Inserted (map (fun data => [data]) (data_arr ++ [v]))
  | inl e =>
      body literal_eval limit st row = Raised e
      /\ ingest literal_eval limit st (row :: rest) = mkRun st (Uncaught e) rest
  end.
Proof.
  intros Hrow Hl Ht Hc Hlen.
  assert (Hb : body literal_eval limit st row =
    match literal_eval (PyStr.replace_quote cell) with
    | inr v => Inserted (map (fun data => [data]) (data_arr ++ [v]))
    | inl e => Raised e
    end).
  { rewrite body_under_limit by exact Hl.
    rewrite (transform_last_cell literal_eval row front cell Hrow Ht), Hc.
    apply Z.ltb_ge in Hlen. rewrite Hlen. reflexivity. }
  destruct (literal_eval (PyStr.replace_quote cell)) as [e|v]; [|exact Hb].
  split; [exact Hb | apply ingest_raise, Hb].
Qed.

(** C3, on the row whose vector literal has two components: it is
    inserted with that two-component list as its last field. *)
Lemma vector_cell_literal_witness :
  (29 <= List.length Sample.two_component_row)%nat
  /\ PyStr.len (PyStr.replace_quote "[1, 2]") <= 10000
  /\ body Literal.literal_eval 20000 start Sample.two_component_row =
       Inserted (Sample.entity_with (VList [VInt 1; VInt 2])).
Proof.
  assert (H1 : (29 <= List.length Sample.two_component_row)%nat)
    by (vm_compute; lia).
  assert (H2 : it start <= 20000) by (vm_compute; discriminate).
  assert (H3 : tl Sample.two_component_row = Sample.scalars ++ ["[1, 2]"%string])
    by reflexivity.
  assert (H4 : PyStr.len (PyStr.replace_quote "[1, 2]") <= 10000)
    by (vm_compute; discriminate).
  split; [exact H1|]. split; [exact H4|].
  exact (vector_cell_literal Literal.literal_eval 20000 start
           Sample.two_component_row Sample.scalars "[1, 2]"
           Sample.stored_scalars [] H1 H2 H3 sample_scalars_stored H4).
Defined.

(** C3 as stated fails: a vector literal of two components, not 128, is
    accepted, and a vector literal that does not parse is not a rejection
    of the row but an exception. *)
Lemma vector_cell_is_not_validated :
  transform Literal.literal_eval Sample.two_component_row =
    Inserted (Sample.entity_with (VList [VInt 1; VInt 2]))
  /\ Literal.is_vector 128 (VList [VInt 1; VInt 2]) = false
  /\ transform Literal.literal_eval Sample.unclosed_row = Raised SyntaxError
  /\ Literal.literal_eval "[1, 2" = inl SyntaxError.
Proof. vm_compute. repeat split; reflexivity. Qed.

(** C8. The last cell of a row sits at a position that is not a numeric
    column, so the column loop gives it the string treatment before line
    180 reads it as a literal.  When the sanitized vector literal is longer
    than 10000 characters no entity is built from the row, and the row is
    skipped (the one other way out being an exception raised by an earlier
    cell); otherwise [literal_eval] is applied to the literal with every
    single quote replaced by a space. *)
Theorem vector_cell_gets_string_treatment
    (literal_eval : string -> exn + pyval) (limit : Z) (st : state)
    (row front : list string) (cell : string) :
  (29 <= List.length row)%nat ->
  it st <= limit ->
  tl row = front ++ [cell] ->
  in_numeric_columns (List.length front) = false
  /\ (10000 < PyStr.len (PyStr.replace_quote cell) ->
      (forall d, body literal_eval limit st row <> Inserted d)
      /\ ((forall e, columns 0 front <> LoopRaise e) ->
          body literal_eval limit st row = LongRow))
  /\ (forall data_arr,
        columns 0 front = Completed data_arr ->
        PyStr.len (PyStr.replace_quote cell) <= 10000 ->
        body literal_eval limit st row =
          match literal_eval (PyStr.replace_quote cell) with
          | inr v => Inserted (map (fun data => [data]) (data_arr ++ [v]))
          | inl e => Raised e
          end).
Proof.
  intros Hrow Hl Ht.
  pose proof (last_position row front cell Hrow Ht) as Hp.
  rewrite body_under_limit by exact Hl.
  rewrite (transform_last_cell literal_eval row front cell Hrow Ht).
  split; [apply in_numeric_columns_bound, Hp|]. split.
  - intros Hlen. apply Z.ltb_lt in Hlen. rewrite Hlen. split.
    + intros d. destruct (columns 0 front); discriminate.
    + intros Hq. destruct (columns 0 front) as [a| |e]; try reflexivity.
      destruct (Hq e). reflexivity.
  - intros data_arr Hc Hlen. rewrite Hc. apply Z.ltb_ge in Hlen.
    rewrite Hlen. reflexivity.
Qed.

(** C8, on two sample rows: a vector cell of 10001 characters makes the
    loop skip the row, and the quotes of a vector literal are gone before
    it is read, so that the quoted component is read as a number. *)
Lemma vector_cell_gets_string_treatment_witness :
  body Literal.literal_eval 20000 start Sample.long_vector_row = LongRow
  /\ PyStr.replace_quote "[1, '2']" = "[1,  2 ]"%string
  /\ body Literal.literal_eval 20000 start Sample.quoted_vector_row =
       Inserted (Sample.entity_with (VList [VInt 1; VInt 2])).
Proof.
  assert (Hl : it start <= 20000) by (vm_compute; discriminate).
  split; [|split; [reflexivity|]].
  - destruct (vector_cell_gets_string_treatment Literal.literal_eval 20000
                start Sample.long_vector_row Sample.scalars Sample.long_text)
      as [_ [H _]].
    + vm_compute. lia.
    + exact Hl.
    + reflexivity.
    + apply H.
      * vm_compute. reflexivity.
      * intros e. rewrite sample_scalars_stored. discriminate.
  - destruct (vector_cell_gets_string_treatment Literal.literal_eval 20000
                start Sample.quoted_vector_row Sample.scalars "[1, '2']")
      as [_ [_ H]].
    + vm_compute. lia.
    + exact Hl.
    + reflexivity.
    + apply (H Sample.stored_scalars sample_scalars_stored).
      vm_compute. discriminate.
Defined.

(** ** Rows that are skipped *)

Lemma replace_quote_get (s : string) :
  forall i : nat,
    String.get i (PyStr.replace_quote s) =
      option_map (fun c => if PyStr.code c =? 39 then " "%char else c)
        (String.get i s).
Proof.
  induction s as [|c s IH]; intros i; simpl.
  - reflexivity.
  - destruct i as [|i]; [reflexivity | apply IH].
Qed.

(** C6. A row with fewer than 29 cells, the index column included, is
    skipped whatever the state: no entity is inserted for it, the counter
    stays, and the loop goes on with the next row. *)
Theorem short_row_is_skipped (literal_eval : string -> exn + pyval)
    (limit : Z) (st : state) (row : list string) (rest : list (list string)) :
  (List.length row < 29)%nat ->
  body literal_eval limit st row = ShortRow
  /\ ingest literal_eval limit st (row :: rest) =
       ingest literal_eval limit st rest.
Proof.
  intros H. pose proof (body_short literal_eval limit st row H) as Hb.
  split; [exact Hb|]. apply ingest_skip. left. exact Hb.
Qed.

(** C6, on the sample row of 28 cells. *)
Lemma short_row_is_skipped_witness :
  (List.length Sample.short_row < 29)%nat
  /\ body Literal.literal_eval 20000 start Sample.short_row = ShortRow
  /\ ingest Literal.literal_eval 20000 start [Sample.short_row; Sample.row] =
       ingest Literal.literal_eval 20000 start [Sample.row].
Proof.
  assert (H : (List.length Sample.short_row < 29)%nat) by (vm_compute; lia).
  split; [exact H|].
  exact (short_row_is_skipped Literal.literal_eval 20000 start
           Sample.short_row [Sample.row] H).
Defined.

(** ** Runs *)

Lemma body_inserted_transform (literal_eval : string -> exn + pyval)
    (limit : Z) (st : state) (row : list string) (d : entity) :
  body literal_eval limit st row = Inserted d ->
  transform literal_eval row = Inserted d.
Proof.
  intros H. destruct (Z.le_gt_cases (it st) limit) as [Hl|Hl].
  - rewrite body_under_limit in H by exact Hl. exact H.
  - unfold body in H. destruct (List.length row <? 29)%nat; [discriminate|].
    apply Z.ltb_lt in Hl. rewrite Hl in H. discriminate.
Qed.

Lemma ingest_inserted_origin (literal_eval : string -> exn + pyval)
    (limit : Z) (rows : list (list string)) :
  forall (st : state) (d : entity),
    In d (inserted (final (ingest literal_eval limit st rows))) ->
    In d (inserted st)
    \/ exists row, In row rows /\ transform literal_eval row = Inserted d.
Proof.
  induction rows as [|row rest IH]; intros st d Hin; simpl in Hin.
  - left. exact Hin.
  - destruct (body literal_eval limit st row) as [| | |e|d'] eqn:Hb;
      try (left; exact Hin);
      try (destruct (IH st d Hin) as [H|[r [Hr Ht]]];
           [left; exact H | right; exists r; split; [right; exact Hr | exact Ht]]).
    destruct (IH _ d Hin) as [H|[r [Hr Ht]]].
    + simpl in H. destruct H as [<-|H]; [|left; exact H].
      right. exists row. split; [left; reflexivity|].
      exact (body_inserted_transform literal_eval limit st row d' Hb).
    + right. exists r. split; [right; exact Hr | exact Ht].
Qed.

(** C7. What the loop body does with a row is a function of the row alone:
    run in two states that have not passed their limits, whatever their
    counters and whatever was inserted before, it ends the same way and
    builds the same entity; and every entity a run inserts is the one the
    body builds from one of the rows, taken on its own. *)
Theorem transform_is_pure (literal_eval : string -> exn + pyval) :
  (forall (limit1 limit2 : Z) (st1 st2 : state) (row : list string),
     it st1 <= limit1 -> it st2 <= limit2 ->
     body literal_eval limit1 st1 row = body literal_eval limit2 st2 row)
  /\ (forall (limit : Z) (st : state) (rows : list (list string)) (d : entity),
        In d (inserted (final (ingest literal_eval limit st rows))) ->
        In d (inserted st)
        \/ exists row, In row rows /\ transform literal_eval row = Inserted d).
Proof.
  split.
  - intros limit1 limit2 st1 st2 row H1 H2.
    rewrite !body_under_limit by assumption. reflexivity.
  - intros limit st rows. apply ingest_inserted_origin.
Qed.

(** C7, on the sample row in the initial state and in a later one. *)
Lemma transform_is_pure_witness :
  body Literal.literal_eval 20000 start Sample.row =
    body Literal.literal_eval 7
      (mkState 3 [Sample.entity_with (VList [])]) Sample.row.
Proof.
  apply (proj1 (transform_is_pure Literal.literal_eval)).
  - vm_compute. discriminate.
  - vm_compute. discriminate.
Defined.

(** C5, as amended.  A short row and a row with an over-long field never end
    the run: the loop skips the row and goes on.  When no row raises, the
    run ends after the last row of the source, every row having been read,
    or at the limit.  A row whose vector literal (or whose numeric cell)
    raises is not skipped: the exception ends the run at that row, and the
    rows after it are never read. *)
Theorem rejections_do_not_abort (literal_eval : string -> exn + pyval)
    (limit : Z) :
  (forall st row rest,
     it st <= limit -> rejected literal_eval row ->
     ingest literal_eval limit st (row :: rest) =
       ingest literal_eval limit st rest)
  /\ (forall st rows,
        Forall (quiet literal_eval) rows ->
        (how (ingest literal_eval limit st rows) = Exhausted
         /\ unread (ingest literal_eval limit st rows) = [])
        \/ (how (ingest literal_eval limit st rows) = Break
            /\ limit < it (final (ingest literal_eval limit st rows))))
  /\ (forall st row rest e,
        it st <= limit -> transform literal_eval row = Raised e ->
        ingest literal_eval limit st (row :: rest) =
          mkRun st (Uncaught e) rest).
Proof.
  split; [|split].
  - intros st row rest Hl Hr. apply ingest_skip.
    rewrite body_under_limit by exact Hl. exact Hr.
  - intros st rows Hq. exact (ingest_quiet literal_eval limit rows st Hq).
  - intros st row rest e Hl Hr. apply ingest_raise.
    rewrite body_under_limit by exact Hl. exact Hr.
Qed.

(** C5, on a short row followed by the sample row. *)
Lemma rejections_do_not_abort_witness :
  ingest Literal.literal_eval 20000 start [Sample.short_row; Sample.row] =
    ingest Literal.literal_eval 20000 start [Sample.row].
Proof.
  apply (proj1 (rejections_do_not_abort Literal.literal_eval 20000)).
  - vm_compute. discriminate.
  - left. vm_compute. reflexivity.
Defined.

(** C5 as stated fails: after a short row and an over-long row, both
    skipped, a row whose vector literal does not parse ends the run with an
    uncaught exception; the valid row that follows is never read and
    nothing is inserted. *)
Lemma malformed_vector_aborts_run :
  movie_ingest Literal.literal_eval
    [Sample.short_row; Sample.long_row; Sample.unclosed_row; Sample.row]
  = mkRun start (Uncaught SyntaxError) [Sample.row].
Proof. vm_compute. reflexivity. Qed.

(** ** Numeric cells *)

(** C9, as amended.  A digit-only cell at a numeric position never takes
    the string branch: no quote is replaced, no length is compared with
    10000, and the row is never skipped on account of that cell.  With at
    most 4300 digits the cell is turned into the number its digits denote
    and the column loop goes on to the next cell; with more than 4300
    digits [int] raises [ValueError], which ends the column loop and the
    run. *)
Theorem numeric_cell_skips_length_check (col : nat) (cell : string) :
  PyStr.isdecimal cell = true ->
  In col numeric_columns_idx ->
  convert col cell <> LongData
  /\ (PyStr.len cell <= 4300 ->
      convert col cell = Store (VInt (positional cell))
      /\ forall pre post front,
           List.length pre = col ->
           columns 0 pre = Completed front ->
           columns 0 (pre ++ cell :: post) =
             match columns (S col) post with
             | Completed back =>
                 Completed (front ++ VInt (positional cell) :: back)
             | stopped => stopped
             end)
  /\ (4300 < PyStr.len cell ->
      convert col cell = CellRaise ValueError
      /\ forall pre post front,
           List.length pre = col ->
           columns 0 pre = Completed front ->
           columns 0 (pre ++ cell :: post) = LoopRaise ValueError).
Proof.
  intros Hd Hc. apply in_numeric_columns_In in Hc.
  assert (Hpos : PyStr.digits_value 0 cell = positional cell).
  { rewrite digits_value_positional. lia. }
  split; [|split].
  - destruct (Z.le_gt_cases (PyStr.len cell) 4300) as [Hl|Hl].
    + rewrite (convert_coerced col cell Hd Hc Hl). discriminate.
    + rewrite (convert_capped col cell Hd Hc Hl). discriminate.
  - intros Hl. pose proof (convert_coerced col cell Hd Hc Hl) as Hv.
    rewrite Hpos in Hv. split; [exact Hv|].
    intros pre post front Hlen Hpre. rewrite columns_app, Hpre, Hlen.
    simpl. rewrite Hv. destruct (columns (S col) post); reflexivity.
  - intros Hl. pose proof (convert_capped col cell Hd Hc Hl) as Hv.
    split; [exact Hv|].
    intros pre post front Hlen Hpre. rewrite columns_app, Hpre, Hlen.
    simpl. rewrite Hv. reflexivity.
Qed.

(** C9, on a budget cell of 4300 digits. *)
Lemma numeric_cell_skips_length_check_witness :
  PyStr.len Sample.digits_4300 = 4300
  /\ convert 5 Sample.digits_4300 = Store (VInt (positional Sample.digits_4300)).
Proof.
  split; [vm_compute; reflexivity|].
  destruct (numeric_cell_skips_length_check 5 Sample.digits_4300)
    as [_ [H _]].
  - vm_compute. reflexivity.
  - simpl. auto.
  - apply H. vm_compute. discriminate.
Defined.

(** C9 as stated fails on a budget cell of 10001 digits: the cell is not
    turned into an integer; [int] raises [ValueError] and the run ends at
    that row, the row after it staying unread. *)
Lemma long_digit_cell_raises :
  PyStr.isdecimal Sample.long_digits = true
  /\ 10000 < PyStr.len Sample.long_digits
  /\ convert 5 Sample.long_digits = CellRaise ValueError
  /\ movie_ingest Literal.literal_eval [Sample.long_digits_row; Sample.row] =
       mkRun start (Uncaught ValueError) [Sample.row].
Proof. vm_compute. repeat split; reflexivity. Qed.

(** ** The counter *)

Lemma rejected_blank_line (literal_eval : string -> exn + pyval) :
  rejected literal_eval [].
Proof. left. reflexivity. Qed.

(** C10. The counter is the number of inserted entities and never passes
    [limit + 1]; a skipped row leaves the counter and the inserted entities
    as they were; and a source of skipped rows is read to its end however
    long it is, the limit never coming into play. *)
Theorem counter_counts_inserted_rows (literal_eval : string -> exn + pyval)
    (limit : Z) :
  0 <= limit ->
  (forall rows,
     it (final (ingest literal_eval limit start rows)) =
       Z.of_nat (List.length (inserted (final (ingest literal_eval limit start rows))))
     /\ it (final (ingest literal_eval limit start rows)) <= limit + 1)
  /\ (forall st row rest,
        it st <= limit -> rejected literal_eval row ->
        ingest literal_eval limit st (row :: rest) =
          ingest literal_eval limit st rest)
  /\ (forall rows,
        Forall (rejected literal_eval) rows ->
        ingest literal_eval limit start rows = mkRun start Exhausted []
        /\ examined rows (ingest literal_eval limit start rows) =
             Z.of_nat (List.length rows))
  /\ (forall n : nat,
        examined (repeat [] n) (ingest literal_eval limit start (repeat [] n)) =
          Z.of_nat n
        /\ it (final (ingest literal_eval limit start (repeat [] n))) = 0).
Proof.
  intros H0.
  assert (Hrej : forall rows, Forall (rejected literal_eval) rows ->
            ingest literal_eval limit start rows = mkRun start Exhausted []
            /\ examined rows (ingest literal_eval limit start rows) =
                 Z.of_nat (List.length rows)).
  { intros rows Hr.
    assert (E : ingest literal_eval limit start rows = mkRun start Exhausted [])
      by (apply ingest_rejected; [exact H0 | exact Hr]).
    split; [exact E|]. unfold examined. rewrite E. simpl. lia. }
  split; [|split; [|split]].
  - intros rows.
    destruct (ingest_counter literal_eval limit rows start) as [H1 [H2 H3]].
    change (it start) with 0 in H1, H2, H3.
    change (inserted start) with (@nil entity) in H1. simpl List.length in H1.
    split; lia.
  - intros st row rest Hl Hr. apply ingest_skip.
    rewrite body_under_limit by exact Hl. exact Hr.
  - exact Hrej.
  - intros n.
    assert (Hr : Forall (rejected literal_eval) (repeat [] n)).
    { apply Forall_forall. intros row Hin. apply repeat_spec in Hin. subst row.
      apply rejected_blank_line. }
    destruct (Hrej _ Hr) as [E Hx].
    split; [rewrite Hx, repeat_length; reflexivity | rewrite E; reflexivity].
Qed.

(** C10, on a short row, an over-long row and the sample row: one entity is
    inserted and the counter is 1. *)
Lemma counter_counts_inserted_rows_witness :
  0 <= 20000
  /\ it (final (ingest Literal.literal_eval 20000 start
                  [Sample.short_row; Sample.long_row; Sample.row])) =
       Z.of_nat (List.length (inserted (final
         (ingest Literal.literal_eval 20000 start
            [Sample.short_row; Sample.long_row; Sample.row]))))
  /\ ingest Literal.literal_eval 20000 start [Sample.short_row; Sample.long_row]
       = mkRun start Exhausted [].
Proof.
  assert (H0 : 0 <= 20000) by discriminate.
  destruct (counter_counts_inserted_rows Literal.literal_eval 20000 H0)
    as [H1 [_ [H3 _]]].
  split; [exact H0|]. split.
  - exact (proj1 (H1 [Sample.short_row; Sample.long_row; Sample.row])).
  - apply H3. apply Forall_cons; [|apply Forall_cons; [|apply Forall_nil]].
    + left. vm_compute. reflexivity.
    + right. vm_compute. reflexivity.
Defined.

(** * Further properties of the script *)

(** ** Strings and integers *)

(** X1. A cell makes the column loop raise exactly when [int] is reached
    with a string it refuses: the cell passes [isnumeric], sits at a
    numeric position, and either is not made of decimal digits only or has
    more than 4300 digits.  The exception is [ValueError]. *)
Theorem convert_raises_iff (col : nat) (cell : string) (e : exn) :
  convert col cell = CellRaise e <->
  (e = ValueError
   /\ PyStr.isnumeric cell = true
   /\ In col numeric_columns_idx
   /\ (PyStr.isdecimal cell = false \/ 4300 < PyStr.len cell)).
Proof.
  unfold convert, PyStr.int, PyStr.max_str_digits. split.
  - destruct (PyStr.isnumeric cell) eqn:Hn; simpl.
    + destruct (in_numeric_columns col) eqn:Hc.
      * apply in_numeric_columns_In in Hc.
        destruct (PyStr.isdecimal cell) eqn:Hd.
        -- destruct (4300 <? PyStr.len cell) eqn:Hl; [|discriminate].
           intros H. injection H as <-. apply Z.ltb_lt in Hl.
           repeat split; [exact Hc | right; exact Hl].
        -- intros H. injection H as <-.
           repeat split; [exact Hc | left; reflexivity].
      * destruct (10000 <? _); discriminate.
    + destruct (10000 <? _); discriminate.
  - intros [-> [Hn [Hc Hd]]]. apply in_numeric_columns_In in Hc.
    rewrite Hn, Hc. simpl.
    destruct (PyStr.isdecimal cell); [|reflexivity].
    destruct Hd as [Hd|Hl]; [discriminate|].
    apply Z.ltb_lt in Hl. rewrite Hl. reflexivity.
Qed.

Lemma quote_free_replace (s : string) :
  quote_free (PyStr.replace_quote s) = true.
Proof.
  unfold quote_free. induction s as [|c s IH]; simpl; [reflexivity|].
  rewrite IH, andb_true_r.
  destruct (PyStr.code c =? 39) eqn:E; [reflexivity | rewrite E; reflexivity].
Qed.

Lemma replace_quote_fixed (s : string) :
  quote_free s = true -> PyStr.replace_quote s = s.
Proof.
  unfold quote_free. induction s as [|c s IH]; simpl; [reflexivity|].
  intros H. apply andb_true_iff in H as [Hc Hs].
  rewrite (IH Hs). apply negb_true_iff in Hc. rewrite Hc. reflexivity.
Qed.

(** X2. The sanitization of line 170 keeps the length of the string, so the
    comparison of line 171 is one on the length of the raw cell; its result
    holds no single quote; applying it twice is applying it once; and it
    changes nothing in a string without single quote. *)
Theorem replace_quote_sanitizes (s : string) :
  PyStr.len (PyStr.replace_quote s) = PyStr.len s
  /\ quote_free (PyStr.replace_quote s) = true
  /\ PyStr.replace_quote (PyStr.replace_quote s) = PyStr.replace_quote s
  /\ (quote_free s = true -> PyStr.replace_quote s = s).
Proof.
  split; [apply replace_quote_length|].
  split; [apply quote_free_replace|].
  split; [apply replace_quote_fixed, quote_free_replace|].
  apply replace_quote_fixed.
Qed.

Lemma replace_quote_sanitizes_witness :
  quote_free "ok" = true /\ PyStr.replace_quote "ok" = "ok"%string.
Proof.
  split; [reflexivity|].
  apply (proj2 (proj2 (proj2 (replace_quote_sanitizes "ok")))). reflexivity.
Defined.

Section IntFacts.

Import PyStr Builtins.

Lemma lstrip_nonspace (l : list ascii) :
  Forall nonspace l -> lstrip l = l.
Proof.
  intros H. destruct H as [|c l Hc _]; [reflexivity|].
  simpl. unfold nonspace in Hc. rewrite Hc. reflexivity.
Qed.

Lemma strip_nonspace (l : list ascii) :
  Forall nonspace l -> strip l = l.
Proof.
  intros H. unfold strip. rewrite (lstrip_nonspace l H).
  rewrite lstrip_nonspace by (apply Forall_rev, H). apply rev_involutive.
Qed.

Lemma numeric_nonspace (c : ascii) :
  isnumeric_char c = true ->
  nonspace c /\ code c <> 45 /\ code c <> 43 /\ code c <> 95.
Proof.
  unfold isnumeric_char, isdecimal_char, nonspace, isspace_char. intros H.
  repeat (apply orb_true_iff in H as [H|H]);
    repeat (apply andb_true_iff in H as [? H]);
    repeat match goal with
    | h : (_ <=? _) = true |- _ => apply Z.leb_le in h
    | h : (_ =? _) = true |- _ => apply Z.eqb_eq in h
    end;
    (split; [|lia]);
    repeat (apply orb_false_iff; split); try (apply Z.eqb_neq; lia);
    apply andb_false_iff; (left; apply Z.leb_gt; lia) || (right; apply Z.leb_gt; lia).
Qed.

Lemma all_chars_Forall (p : ascii -> bool) (s : string) :
  all_chars p s = true ->
  Forall (fun c => p c = true) (list_ascii_of_string s).
Proof.
  induction s as [|c s IH]; simpl; intros H; [constructor|].
  apply andb_true_iff in H as [Hc Hs]. constructor; [exact Hc | apply IH, Hs].
Qed.

Lemma more_digits_numeric (s : string) :
  forall acc : Z,
    all_chars isnumeric_char s = true ->
    more_digits acc (list_ascii_of_string s) =
      if all_chars isdecimal_char s then Some (digits_value acc s) else None.
Proof.
  induction s as [|c s IH]; intros acc H; simpl; [reflexivity|].
  simpl in H. apply andb_true_iff in H as [Hc Hs].
  destruct (isdecimal_char c) eqn:Hd; simpl.
  - apply IH, Hs.
  - destruct (numeric_nonspace c Hc) as [_ [_ [_ Hu]]].
    apply Z.eqb_neq in Hu. rewrite Hu. reflexivity.
Qed.

Lemma more_digits_decimal (s : string) (acc : Z) :
  all_chars isdecimal_char s = true ->
  more_digits acc (list_ascii_of_string s) = Some (digits_value acc s).
Proof.
  intros H. rewrite more_digits_numeric.
  - rewrite H. reflexivity.
  - apply all_chars_weaken with (p := isdecimal_char); [|exact H].
    intros c Hc. unfold isnumeric_char. rewrite Hc. reflexivity.
Qed.

Lemma unsigned_decimal (s : string) :
  isdecimal s = true ->
  unsigned (list_ascii_of_string s) = Some (digits_value 0 s).
Proof.
  unfold isdecimal. destruct s as [|c s]; [discriminate|]. simpl.
  intros H. apply andb_true_iff in H as [Hc Hs]. rewrite Hc.
  apply more_digits_decimal, Hs.
Qed.

Lemma decimal_nonspace (s : string) :
  all_chars isdecimal_char s = true ->
  Forall nonspace (list_ascii_of_string s).
Proof.
  intros H. apply all_chars_Forall in H.
  eapply Forall_impl; [|exact H]. intros c Hc. simpl in Hc.
  apply numeric_nonspace. unfold isnumeric_char. rewrite Hc. reflexivity.
Qed.

Lemma count_digits_decimal (s : string) :
  all_chars isdecimal_char s = true ->
  count_digits (list_ascii_of_string s) = len s.
Proof.
  unfold count_digits, len. intros H. f_equal.
  induction s as [|c s IH]; simpl; [reflexivity|].
  simpl in H. apply andb_true_iff in H as [Hc Hs].
  rewrite Hc. simpl. rewrite (IH Hs). reflexivity.
Qed.

Lemma signed_numeric (data : string) :
  isnumeric data = true ->
  signed (list_ascii_of_string data) =
    if isdecimal data then Some (digits_value 0 data) else None.
Proof.
  unfold isnumeric, isdecimal. intros H. apply andb_true_iff in H as [Hne Hn].
  rewrite Hne. destruct data as [|c s]; [discriminate|]. simpl in Hn |- *.
  apply andb_true_iff in Hn as [Hc Hs].
  destruct (numeric_nonspace c Hc) as [_ [Hm [Hp _]]].
  apply Z.eqb_neq in Hm, Hp. rewrite Hm, Hp.
  destruct (isdecimal_char c) eqn:Hd; simpl; [|reflexivity].
  rewrite (more_digits_numeric s _ Hs).
  destruct (all_chars isdecimal_char s); reflexivity.
Qed.

Lemma pystr_int_positional (data : string) :
  PyStr.int data =
    if isdecimal data && (len data <=? 4300) then inr (positional data)
    else inl ValueError.
Proof.
  unfold PyStr.int, max_str_digits. destruct (isdecimal data); [|reflexivity].
  simpl. rewrite Z.ltb_antisym.
  destruct (len data <=? 4300); simpl; [|reflexivity].
  rewrite digits_value_positional. f_equal; lia.
Qed.

(** X3. On a string that passes the [isnumeric] guard of line 167, the
    only strings the movie loop hands to [int], [int] returns the number
    the digits denote when all characters are decimal digits and there are
    at most 4300 of them, and raises [ValueError] otherwise: the guard
    rules out signs, white space and underscores, which [int] would take,
    but neither the other numeric characters nor too many digits.  On these
    strings [PyStr.int] is [int]. *)
Theorem int_on_numeric_strings (data : string) :
  isnumeric data = true ->
  Builtins.int data =
    (if isdecimal data && (len data <=? 4300) then inr (positional data)
     else inl ValueError)
  /\ Builtins.int data = PyStr.int data.
Proof.
  intros H.
  assert (E : Builtins.int data = PyStr.int data).
  { pose proof (signed_numeric data H) as Hs.
    unfold isnumeric in H. apply andb_true_iff in H as [Hne Hn].
    assert (Hsp : Forall nonspace (list_ascii_of_string data)).
    { apply all_chars_Forall in Hn. eapply Forall_impl; [|exact Hn].
      intros c Hc. apply (numeric_nonspace c Hc). }
    unfold Builtins.int, PyStr.int. cbv zeta.
    rewrite (strip_nonspace _ Hsp), Hs.
    destruct (isdecimal data) eqn:Hd; [|reflexivity].
    unfold isdecimal in Hd. apply andb_true_iff in Hd as [_ Hd].
    rewrite (count_digits_decimal data Hd). reflexivity. }
  split; [|exact E]. rewrite E. apply pystr_int_positional.
Qed.

Lemma int_on_numeric_strings_witness :
  isnumeric "0862" = true /\ Builtins.int "0862" = inr 862.
Proof.
  split; [reflexivity|].
  destruct (int_on_numeric_strings "0862" eq_refl) as [H _].
  rewrite H. reflexivity.
Defined.

Lemma chars_app (x y : string) :
  list_ascii_of_string (x ++ y) =
    (list_ascii_of_string x ++ list_ascii_of_string y)%list.
Proof. induction x as [|c x IH]; simpl; [reflexivity | rewrite IH; reflexivity]. Qed.

Lemma lstrip_snoc (l : list ascii) (c : ascii) :
  isspace_char c = true ->
  lstrip (l ++ [c]) =
    match lstrip l with
    | [] => []
    | kept => kept ++ [c]
    end.
Proof.
  intros Hc. induction l as [|d l IH]; simpl.
  - rewrite Hc. reflexivity.
  - destruct (isspace_char d); [exact IH | reflexivity].
Qed.

Lemma strip_cons_space (c : ascii) (l : list ascii) :
  isspace_char c = true -> strip (c :: l) = strip l.
Proof. intros Hc. unfold strip. simpl. rewrite Hc. reflexivity. Qed.

Lemma strip_snoc_space (c : ascii) (l : list ascii) :
  isspace_char c = true -> strip (l ++ [c]) = strip l.
Proof.
  intros Hc. unfold strip. rewrite (lstrip_snoc _ c Hc).
  destruct (lstrip l) as [|d k] eqn:E; [reflexivity|].
  rewrite rev_app_distr. simpl rev at 1. simpl app.
  cbn [lstrip]. rewrite Hc. reflexivity.
Qed.

(** [int] ignores white space on either side of its argument, and a sign
    in front of at most 4300 decimal digits is taken. *)
Lemma int_space_and_sign :
  (forall (c : ascii) (x : string),
     isspace_char c = true ->
     Builtins.int (String c x) = Builtins.int x
     /\ Builtins.int (x ++ String c EmptyString) = Builtins.int x)
  /\ (forall digits : string,
        isdecimal digits = true ->
        len digits <= 4300 ->
        Builtins.int (String "-" digits) = inr (- digits_value 0 digits)
        /\ Builtins.int (String "+" digits) = inr (digits_value 0 digits)).
Proof.
  split.
  - intros c x Hc. split.
    + unfold Builtins.int. simpl list_ascii_of_string.
      rewrite (strip_cons_space c _ Hc). reflexivity.
    + unfold Builtins.int. rewrite chars_app. simpl list_ascii_of_string.
      rewrite (strip_snoc_space c _ Hc). reflexivity.
  - intros digits Hd Hl.
    pose proof (unsigned_decimal digits Hd) as Hu.
    unfold isdecimal in Hd. apply andb_true_iff in Hd as [_ Hd].
    pose proof (decimal_nonspace digits Hd) as Hsp.
    pose proof (count_digits_decimal digits Hd) as Hn.
    assert (Hcap : (max_str_digits <? len digits) = false)
      by (apply Z.ltb_ge; exact Hl).
    assert (Hcount : forall c : ascii,
              isdecimal_char c = false ->
              count_digits (c :: list_ascii_of_string digits) = len digits).
    { intros c Hc. unfold count_digits. cbn [filter]. rewrite Hc. exact Hn. }
    split; unfold Builtins.int; simpl list_ascii_of_string; cbv zeta;
      rewrite strip_nonspace by (constructor; [reflexivity | exact Hsp]);
      rewrite Hcount by reflexivity; rewrite Hcap;
      cbn [signed]; simpl (code _ =? _); cbv iota; rewrite Hu; reflexivity.
Qed.

End IntFacts.

(** ** The entities of the movie loop *)

Lemma columns_length (cells : list string) :
  forall (col : nat) (data_arr : list pyval),
    columns col cells = Completed data_arr ->
    List.length data_arr = List.length cells.
Proof.
  induction cells as [|c rest IH]; intros col data_arr H; simpl in H.
  - injection H as <-. reflexivity.
  - destruct (convert col c) as [d| |e]; try discriminate.
    destruct (columns (S col) rest) as [arr| |e] eqn:Hr; try discriminate.
    injection H as <-. simpl. rewrite (IH _ _ Hr). reflexivity.
Qed.

Lemma digits_value_nonneg (s : string) :
  forall acc : Z,
    PyStr.all_chars PyStr.isdecimal_char s = true ->
    0 <= acc -> 0 <= PyStr.digits_value acc s.
Proof.
  induction s as [|c s IH]; intros acc H Hacc;
    cbn [PyStr.digits_value PyStr.all_chars] in *; [exact Hacc|].
  apply andb_true_iff in H as [Hc Hs].
  apply IH; [exact Hs|]. unfold PyStr.isdecimal_char in Hc.
  apply andb_true_iff in Hc as [Hlo _]. apply Z.leb_le in Hlo. lia.
Qed.

Lemma convert_stored (col : nat) (cell : string) (data : pyval) :
  convert col cell = Store data -> stored_ok data.
Proof.
  unfold convert, PyStr.int.
  destruct (PyStr.isnumeric cell && in_numeric_columns col).
  - destruct (PyStr.isdecimal cell) eqn:Hd; [|discriminate].
    destruct (PyStr.max_str_digits <? PyStr.len cell); [discriminate|].
    intros H. injection H as <-. simpl.
    unfold PyStr.isdecimal in Hd. apply andb_true_iff in Hd as [_ Hd].
    apply digits_value_nonneg; [exact Hd | lia].
  - destruct (10000 <? PyStr.len (PyStr.replace_quote cell)) eqn:Hl;
      [discriminate|].
    intros H. injection H as <-. simpl.
    split; [apply quote_free_replace | apply Z.ltb_ge, Hl].
Qed.

Lemma columns_stored (cells : list string) :
  forall (col : nat) (data_arr : list pyval),
    columns col cells = Completed data_arr -> Forall stored_ok data_arr.
Proof.
  induction cells as [|c rest IH]; intros col data_arr H; simpl in H.
  - injection H as <-. constructor.
  - destruct (convert col c) as [d| |e] eqn:Hc; try discriminate.
    destruct (columns (S col) rest) as [arr| |e] eqn:Hr; try discriminate.
    injection H as <-.
    constructor; [exact (convert_stored _ _ _ Hc) | exact (IH _ _ Hr)].
Qed.

Lemma length_tl (A : Type) (l : list A) :
  List.length (tl l) = (List.length l - 1)%nat.
Proof. destruct l; simpl; lia. Qed.

Section EntityFacts.

Variable literal_eval : string -> exn + pyval.

Lemma eval_last_split (data_arr : list pyval) :
  forall result : list pyval,
    eval_last literal_eval data_arr = inr result ->
    exists front s v,
      data_arr = front ++ [VStr s]
      /\ result = front ++ [v]
      /\ literal_eval s = inr v.
Proof.
  induction data_arr as [|a arr IH]; intros result H; [discriminate|].
  destruct arr as [|b arr].
  - destruct a as [n|m x|s|l]; try discriminate. simpl in H.
    destruct (literal_eval s) as [e|v] eqn:Hs; [discriminate|].
    injection H as <-. exists [], s, v. repeat split. exact Hs.
  - rewrite eval_last_cons in H.
    destruct (eval_last literal_eval (b :: arr)) as [e|r] eqn:Hr; [discriminate|].
    injection H as <-.
    destruct (IH r eq_refl) as [front [s [v [H1 [H2 H3]]]]].
    exists (a :: front), s, v. rewrite H1, H2. repeat split. exact H3.
Qed.

Lemma transform_inserted_inv (row : list string) (d : entity) :
  transform literal_eval row = Inserted d ->
  (29 <= List.length row)%nat
  /\ exists data_arr front s v,
       columns 0 (tl row) = Completed data_arr
       /\ data_arr = front ++ [VStr s]
       /\ literal_eval s = inr v
       /\ d = map (fun data => [data]) (front ++ [v]).
Proof.
  intros H.
  assert (Hrow : (29 <= List.length row)%nat).
  { apply (transform_long_enough literal_eval). rewrite H. discriminate. }
  split; [exact Hrow|].
  rewrite (transform_columns literal_eval row Hrow) in H.
  destruct (columns 0 (tl row)) as [arr| |e]; try discriminate.
  destruct (eval_last literal_eval arr) as [e|r] eqn:Hr; [discriminate|].
  injection H as <-.
  destruct (eval_last_split arr r Hr) as [front [s [v [H1 [H2 H3]]]]].
  exists arr, front, s, v. rewrite H2. repeat split; assumption.
Qed.

Lemma entity_length (row : list string) (d : entity) :
  transform literal_eval row = Inserted d ->
  List.length d = (List.length row - 1)%nat.
Proof.
  intros H.
  destruct (transform_inserted_inv row d H)
    as [_ [arr [front [s [v [Hc [Ha [_ Hd]]]]]]]].
  subst d. rewrite length_map, length_app. simpl.
  pose proof (columns_length _ _ _ Hc) as Hl.
  rewrite Ha, length_app, length_tl in Hl. simpl in Hl. lia.
Qed.

(** X5. An entity the movie loop builds has one field for each cell of the
    row but the index column, and every field is a list of one element.
    The loop bounds the number of cells from below only: a row of more than
    29 cells gives an entity of more than 28 fields. *)
Theorem inserted_entity_shape (row : list string) (d : entity) :
  transform literal_eval row = Inserted d ->
  (29 <= List.length row)%nat
  /\ List.length d = (List.length row - 1)%nat
  /\ Forall (fun field => List.length field = 1%nat) d.
Proof.
  intros H.
  destruct (transform_inserted_inv row d H)
    as [Hrow [arr [front [s [v [Hc [Ha [_ Hd]]]]]]]].
  split; [exact Hrow|]. split; [exact (entity_length row d H)|].
  subst d.
  - apply Forall_forall. intros field Hin. apply in_map_iff in Hin.
    destruct Hin as [x [<- _]]. reflexivity.
Qed.

(** X6. Whatever the rows, every entity a run of the movie loop inserts
    has at least 27 fields before its last one, each holding a natural
    number or a string of at most 10000 characters without single quote;
    its last field holds the literal value of such a string. *)
Theorem inserted_values_invariant (limit : Z) (rows : list (list string))
    (d : entity) :
  In d (inserted (final (ingest literal_eval limit start rows))) ->
  exists front s v,
    d = map (fun data => [data]) (front ++ [v])
    /\ (27 <= List.length front)%nat
    /\ Forall stored_ok front
    /\ stored_ok (VStr s)
    /\ literal_eval s = inr v.
Proof.
  intros Hin.
  destruct (ingest_inserted_origin literal_eval limit rows start d Hin)
    as [[]|[row [_ Ht]]].
  destruct (transform_inserted_inv row d Ht)
    as [Hrow [arr [front [s [v [Hc [Ha [Hv Hd]]]]]]]].
  exists front, s, v.
  pose proof (columns_stored _ _ _ Hc) as Hs.
  pose proof (columns_length _ _ _ Hc) as Hl.
  rewrite Ha in Hs, Hl. apply Forall_app in Hs as [Hf Hlast].
  rewrite length_app, length_tl in Hl. simpl in Hl.
  split; [exact Hd|]. split; [lia|].
  split; [exact Hf|]. split; [inversion Hlast; assumption | exact Hv].
Qed.

End EntityFacts.

Lemma inserted_entity_shape_witness :
  exists d,
    transform Literal.literal_eval wide_row = Inserted d
    /\ List.length d = 29%nat.
Proof.
  eexists. split; [vm_compute; reflexivity|].
  eapply (inserted_entity_shape Literal.literal_eval wide_row).
  vm_compute. reflexivity.
Defined.

Lemma inserted_values_invariant_witness :
  exists front s v,
    Sample.entity_with (VList [VInt 1; VInt 2]) =
      map (fun data => [data]) (front ++ [v])
    /\ (27 <= List.length front)%nat
    /\ Forall stored_ok front
    /\ stored_ok (VStr s)
    /\ Literal.literal_eval s = inr v.
Proof.
  apply (inserted_values_invariant Literal.literal_eval 20000
           [Sample.short_row; Sample.quoted_vector_row]).
  vm_compute. left. reflexivity.
Defined.

(** ** The column loop stops at the first failure *)

Lemma columns_stop_inv (cells : list string) :
  forall col0 : nat,
    (forall data_arr, columns col0 cells <> Completed data_arr) ->
    exists pre c post front,
      cells = pre ++ c :: post
      /\ columns col0 pre = Completed front
      /\ match columns col0 cells with
         | LongDataExists => convert (col0 + List.length pre) c = LongData
         | LoopRaise e => convert (col0 + List.length pre) c = CellRaise e
         | Completed _ => False
         end.
Proof.
  induction cells as [|c rest IH]; intros col0 H.
  - destruct (H [] eq_refl).
  - simpl in H |- *. destruct (convert col0 c) as [d| |e] eqn:Hc.
    + destruct (IH (S col0)) as [pre [c' [post [front [H1 [H2 H3]]]]]].
      { intros arr Harr. rewrite Harr in H. apply (H (d :: arr)). reflexivity. }
      exists (c :: pre), c', post, (d :: front).
      split; [rewrite H1; reflexivity|]. split.
      * simpl. rewrite Hc, H2. reflexivity.
      * simpl List.length.
        replace (col0 + S (List.length pre))%nat
          with (S col0 + List.length pre)%nat by lia.
        destruct (columns (S col0) rest); assumption.
    + exists [], c, rest, []. simpl. rewrite Nat.add_0_r. repeat split. exact Hc.
    + exists [], c, rest, []. simpl. rewrite Nat.add_0_r. repeat split. exact Hc.
Qed.

(** X7. The column loop stops at the first cell that is too long or on
    which [int] raises, and that cell decides how the row ends: whatever
    follows it in the row (a cell with the other defect, a vector literal
    that does not parse) plays no part. *)
Theorem column_loop_stops_at_first_failure
    (literal_eval : string -> exn + pyval) (row pre post : list string)
    (c : string) (front : list pyval) :
  (29 <= List.length row)%nat ->
  tl row = pre ++ c :: post ->
  columns 0 pre = Completed front ->
  (convert (List.length pre) c = LongData ->
   transform literal_eval row = LongRow)
  /\ (forall e, convert (List.length pre) c = CellRaise e ->
      transform literal_eval row = Raised e)
  /\ (transform literal_eval row = LongRow ->
      exists pre' c' post' front',
        tl row = pre' ++ c' :: post'
        /\ columns 0 pre' = Completed front'
        /\ convert (List.length pre') c' = LongData).
Proof.
  intros Hrow Ht Hpre.
  rewrite (transform_columns literal_eval row Hrow).
  split; [|split].
  - intros Hc. rewrite Ht, columns_app, Hpre. simpl. rewrite Hc. reflexivity.
  - intros e Hc. rewrite Ht, columns_app, Hpre. simpl. rewrite Hc. reflexivity.
  - intros Hl.
    destruct (columns 0 (tl row)) as [arr| |e] eqn:Hcols; try discriminate.
    + destruct (eval_last literal_eval arr); discriminate.
    + destruct (columns_stop_inv (tl row) 0) as [p [c' [q [f [H1 [H2 H3]]]]]].
      { intros arr. rewrite Hcols. discriminate. }
      rewrite Hcols in H3. exists p, c', q, f. repeat split; assumption.
Qed.

(** X7, on a row whose overview is too long and whose vector literal does
    not parse: the row is skipped, no exception is raised. *)
Lemma column_loop_stops_at_first_failure_witness :
  transform Literal.literal_eval
    (("0"%string :: firstn 11 Sample.scalars)
       ++ Sample.long_text :: skipn 12 Sample.scalars ++ ["[1, 2"%string])
  = LongRow.
Proof.
  eapply (column_loop_stops_at_first_failure Literal.literal_eval _
            (firstn 11 Sample.scalars)
            (skipn 12 Sample.scalars ++ ["[1, 2"%string]) Sample.long_text).
  - vm_compute. lia.
  - reflexivity.
  - vm_compute. reflexivity.
  - vm_compute. reflexivity.
Defined.

(** ** Runs of the movie loop *)

Section RunFacts.

Variable literal_eval : string -> exn + pyval.
Variable limit : Z.

Lemma body_skip_transform (st : state) (row : list string) :
  body literal_eval limit st row = ShortRow
  \/ body literal_eval limit st row = LongRow ->
  forall d, transform literal_eval row <> Inserted d.
Proof.
  intros H d Ht.
  destruct (Z.le_gt_cases (it st) limit) as [Hl|Hl].
  - rewrite body_under_limit in H by exact Hl. rewrite Ht in H.
    destruct H; discriminate.
  - pose proof (transform_long_enough literal_eval row) as Hrow.
    rewrite body_over_limit in H; [destruct H; discriminate| |exact Hl].
    apply Hrow. rewrite Ht. discriminate.
Qed.

Lemma accepted_cons_skip (row : list string) (rest : list (list string)) :
  (forall d, transform literal_eval row <> Inserted d) ->
  accepted literal_eval (row :: rest) = accepted literal_eval rest.
Proof.
  intros H. unfold accepted. simpl.
  destruct (transform literal_eval row) as [| | |e|d] eqn:Ht; try reflexivity.
  destruct (H d). reflexivity.
Qed.

Lemma accepted_cons_inserted (row : list string) (rest : list (list string))
    (d : entity) :
  transform literal_eval row = Inserted d ->
  accepted literal_eval (row :: rest) = d :: accepted literal_eval rest.
Proof. intros H. unfold accepted. simpl. rewrite H. reflexivity. Qed.

(** X8. Running the loop over two files in a row: when the run over the
    first ends at its last row, the run over both is the run over the
    second started in the state the first one left; when the first run ends
    at the limit or with an exception, the second file is left unread. *)
Theorem ingest_app (rows1 rows2 : list (list string)) :
  forall st : state,
    ingest literal_eval limit st (rows1 ++ rows2) =
      match how (ingest literal_eval limit st rows1) with
      | Exhausted =>
          ingest literal_eval limit
            (final (ingest literal_eval limit st rows1)) rows2
      | stopped =>
          mkRun (final (ingest literal_eval limit st rows1)) stopped
            (unread (ingest literal_eval limit st rows1) ++ rows2)
      end.
Proof.
  induction rows1 as [|row rest IH]; intros st; simpl.
  - reflexivity.
  - destruct (body literal_eval limit st row); try apply IH; reflexivity.
Qed.

(** X9. The entities a run inserts are, newest first, an initial segment
    of the entities of the rows the loop body accepts, in the order of the
    rows; the counter advances by their number; and a run that ends at the
    last row of the source has inserted them all. *)
Theorem inserted_in_order (rows : list (list string)) :
  forall st : state,
    exists n : nat,
      (n <= List.length (accepted literal_eval rows))%nat
      /\ inserted (final (ingest literal_eval limit st rows)) =
           rev (firstn n (accepted literal_eval rows)) ++ inserted st
      /\ it (final (ingest literal_eval limit st rows)) = it st + Z.of_nat n
      /\ (how (ingest literal_eval limit st rows) = Exhausted ->
          n = List.length (accepted literal_eval rows)).
Proof.
  induction rows as [|row rest IH]; intros st.
  - exists 0%nat. simpl. repeat split; lia.
  - simpl ingest.
    destruct (body literal_eval limit st row) as [| | |e|d] eqn:Hb.
    + rewrite accepted_cons_skip by (apply (body_skip_transform st); left; exact Hb).
      apply IH.
    + exists 0%nat. simpl. repeat split; try lia. discriminate.
    + rewrite accepted_cons_skip by (apply (body_skip_transform st); right; exact Hb).
      apply IH.
    + exists 0%nat. simpl. repeat split; try lia. discriminate.
    + rewrite (accepted_cons_inserted row rest d)
        by exact (body_inserted_transform literal_eval limit st row d Hb).
      destruct (IH (mkState (it st + 1) (d :: inserted st)))
        as [n [H1 [H2 [H3 H4]]]].
      exists (S n). simpl in H2, H3 |- *.
      split; [lia|]. split; [|split].
      * rewrite H2, <- app_assoc. reflexivity.
      * rewrite H3. lia.
      * intros He. rewrite (H4 He). reflexivity.
Qed.

(** X10. Once the counter has passed the limit nothing is inserted any
    more, yet the loop does not stop at once: rows of fewer than 29 cells
    are still read and skipped, and the loop breaks at the first row of at
    least 29 cells, or runs to the end of the source when there is none. *)
Theorem past_the_limit (st : state) (pre : list (list string)) :
  limit < it st ->
  Forall short pre ->
  ingest literal_eval limit st pre = mkRun st Exhausted []
  /\ (forall row post,
        (29 <= List.length row)%nat ->
        ingest literal_eval limit st (pre ++ row :: post) = mkRun st Break post).
Proof.
  intros Hl Hpre.
  assert (E : ingest literal_eval limit st pre = mkRun st Exhausted []).
  { induction Hpre as [|r rest Hr _ IH]; [reflexivity|].
    simpl. rewrite (body_short literal_eval limit st r Hr). exact IH. }
  split; [exact E|].
  intros row post Hrow. clear E.
  induction Hpre as [|r rest Hr _ IH]; simpl.
  - rewrite (body_over_limit literal_eval limit st row Hrow Hl). reflexivity.
  - rewrite (body_short literal_eval limit st r Hr). exact IH.
Qed.

(** X11. An exception does not undo what was inserted before it: when the
    rows before the offending row have all been read and the limit is not
    passed, the run ends at the offending row in the state those rows
    left, and the rows after it stay unread. *)
Theorem failure_keeps_earlier_rows (pre : list (list string))
    (row : list string) (post : list (list string)) (e : exn) :
  forall st : state,
    how (ingest literal_eval limit st pre) = Exhausted ->
    it (final (ingest literal_eval limit st pre)) <= limit ->
    transform literal_eval row = Raised e ->
    ingest literal_eval limit st (pre ++ row :: post) =
      mkRun (final (ingest literal_eval limit st pre)) (Uncaught e) post.
Proof.
  induction pre as [|r rest IH]; intros st He Hl Hr.
  - simpl in Hl |- *. rewrite body_under_limit by exact Hl. rewrite Hr.
    reflexivity.
  - simpl in He, Hl |- *.
    destruct (body literal_eval limit st r); try discriminate;
      apply IH; assumption.
Qed.

(** X12. The rows left unread are the rows of the source after the ones
    the loop took; a run that ends at the end of the source leaves none;
    and the counter advances by at most the number of rows taken, by fewer
    when the run ends at the limit or with an exception. *)
Theorem run_bookkeeping (rows : list (list string)) :
  forall st : state,
    exists taken : list (list string),
      rows = taken ++ unread (ingest literal_eval limit st rows)
      /\ examined rows (ingest literal_eval limit st rows) =
           Z.of_nat (List.length taken)
      /\ (how (ingest literal_eval limit st rows) = Exhausted ->
          unread (ingest literal_eval limit st rows) = [])
      /\ it (final (ingest literal_eval limit st rows)) - it st
           <= Z.of_nat (List.length taken)
      /\ (how (ingest literal_eval limit st rows) <> Exhausted ->
          it (final (ingest literal_eval limit st rows)) - it st
            < Z.of_nat (List.length taken)).
Proof.
  assert (Hex : forall (taken rest : list (list string)) (r : run),
            taken ++ unread r = rest ->
            examined rest r = Z.of_nat (List.length taken)).
  { intros taken rest r <-. unfold examined. rewrite length_app. lia. }
  induction rows as [|row rest IH]; intros st.
  - exists []. simpl. repeat split; try lia. intros H. destruct H. reflexivity.
  - simpl ingest.
    destruct (body literal_eval limit st row) as [| | |e|d] eqn:Hb.
    + destruct (IH st) as [taken [H1 [H2 [H3 [H4 H5]]]]].
      exists (row :: taken).
      assert (E : (row :: taken) ++ unread (ingest literal_eval limit st rest)
                  = row :: rest) by (simpl; rewrite <- H1; reflexivity).
      split; [symmetry; exact E|]. split; [apply Hex, E|].
      split; [exact H3|]. cbn [List.length].
      split; [lia | intros H; specialize (H5 H); lia].
    + exists [row]. simpl. repeat split; try lia; try discriminate.
      apply (Hex [row]). reflexivity.
    + destruct (IH st) as [taken [H1 [H2 [H3 [H4 H5]]]]].
      exists (row :: taken).
      assert (E : (row :: taken) ++ unread (ingest literal_eval limit st rest)
                  = row :: rest) by (simpl; rewrite <- H1; reflexivity).
      split; [symmetry; exact E|]. split; [apply Hex, E|].
      split; [exact H3|]. cbn [List.length].
      split; [lia | intros H; specialize (H5 H); lia].
    + exists [row]. simpl. repeat split; try lia; try discriminate.
      apply (Hex [row]). reflexivity.
    + destruct (IH (mkState (it st + 1) (d :: inserted st)))
        as [taken [H1 [H2 [H3 [H4 H5]]]]].
      cbn [it] in H4, H5.
      exists (row :: taken).
      assert (E : (row :: taken)
                  ++ unread (ingest literal_eval limit
                               (mkState (it st + 1) (d :: inserted st)) rest)
                  = row :: rest) by (simpl; rewrite <- H1; reflexivity).
      split; [symmetry; exact E|]. split; [apply Hex, E|].
      split; [exact H3|]. cbn [List.length].
      split; [lia | intros H; specialize (H5 H); lia].
Qed.

End RunFacts.

(** X10, on two short rows followed by the sample row, in a state past
    the limit. *)
Lemma past_the_limit_witness :
  ingest Literal.literal_eval 20000 (mkState 20001 [])
    ([Sample.short_row; []] ++ Sample.row :: [Sample.row])
  = mkRun (mkState 20001 []) Break [Sample.row].
Proof.
  apply (past_the_limit Literal.literal_eval 20000 (mkState 20001 [])
           [Sample.short_row; []]).
  - reflexivity.
  - repeat constructor; vm_compute; lia.
  - vm_compute. lia.
Defined.

(** X11, on the sample row followed by the row whose vector literal does
    not parse: the entity of the first row stays inserted. *)
Lemma failure_keeps_earlier_rows_witness :
  ingest Literal.literal_eval 20000 start
    ([Sample.two_component_row] ++ Sample.unclosed_row :: [Sample.row])
  = mkRun
      (final (ingest Literal.literal_eval 20000 start [Sample.two_component_row]))
      (Uncaught SyntaxError) [Sample.row].
Proof.
  apply failure_keeps_earlier_rows.
  - vm_compute. reflexivity.
  - vm_compute. discriminate.
  - vm_compute. reflexivity.
Defined.

(** ** The movie entities against the movie schema *)

Lemma movie_field_kinds (col : nat) (f : FieldSchema) :
  nth_error movie_feature_fields col = Some f ->
  match dtype f with
  | VARCHAR =>
      in_numeric_columns col = false /\ max_length f = Some 10000
      /\ (col < 27)%nat
  | INT64 => in_numeric_columns col = true /\ (col < 27)%nat
  | FLOAT_VECTOR => col = 27%nat
  end.
Proof.
  do 28 (destruct col as [|col];
         [intros H; injection H as <-; simpl; repeat split; lia|]).
  destruct col; discriminate.
Qed.

(** X13. The numeric positions of line 162 are the positions of the fields
    the schema declares [INT64].  For a row of exactly 29 cells that the
    loop accepts, the entity has one field per schema field; a [VARCHAR]
    field always receives a string within its [max_length]; an [INT64]
    field receives an integer when the cell is made of decimal digits and a
    string otherwise (the loop does not turn such a row away); and the
    [FLOAT_VECTOR] field receives the literal value of the sanitized cell,
    whatever it is. *)
Theorem movie_entity_against_schema (literal_eval : string -> exn + pyval)
    (row : list string) (d : entity) :
  List.length row = 29%nat ->
  transform literal_eval row = Inserted d ->
  int64_positions 0 movie_feature_fields = numeric_columns_idx
  /\ List.length d = List.length movie_feature_fields
  /\ (forall col f cell,
        nth_error movie_feature_fields col = Some f ->
        nth_error (tl row) col = Some cell ->
        match dtype f with
        | VARCHAR =>
            exists s m,
              nth_error d col = Some [VStr s]
              /\ max_length f = Some m /\ PyStr.len s <= m
        | INT64 =>
            if PyStr.isdecimal cell
            then nth_error d col = Some [VInt (PyStr.digits_value 0 cell)]
            else exists s, nth_error d col = Some [VStr s]
        | FLOAT_VECTOR =>
            exists v,
              nth_error d col = Some [v]
              /\ literal_eval (PyStr.replace_quote cell) = inr v
        end).
Proof.
  intros Hlen Ht. split; [reflexivity|].
  pose proof (entity_length literal_eval row d Ht) as Hd.
  split; [rewrite Hd, Hlen; reflexivity|].
  destruct (transform_inserted_inv literal_eval row d Ht)
    as [_ [arr [front [s [v [Hc [Ha [Hv Hdd]]]]]]]].
  pose proof (columns_length _ _ _ Hc) as Hl.
  rewrite Ha, length_app, length_tl, Hlen in Hl. simpl in Hl.
  assert (Hfront : List.length front = 27%nat) by lia.
  intros col f cell Hf Hcell.
  destruct (columns_nth _ _ _ Hc col cell Hcell) as [x [Hx Hn]].
  simpl in Hx. rewrite Ha in Hn.
  pose proof (movie_field_kinds col f Hf) as Hk.
  assert (Hfield : forall y, nth_error (front ++ [v]) col = Some y ->
            nth_error d col = Some [y]).
  { intros y Hy. rewrite Hdd, nth_error_map, Hy. reflexivity. }
  destruct (dtype f).
  - destruct Hk as [Hk Hcol].
    rewrite nth_error_app1 in Hn by lia.
    assert (Hy : nth_error (front ++ [v]) col = Some x)
      by (rewrite nth_error_app1 by lia; exact Hn).
    destruct (PyStr.isdecimal cell) eqn:Hdec.
    + destruct (Z.le_gt_cases (PyStr.len cell) 4300) as [Hcap|Hcap].
      * rewrite (convert_coerced col cell Hdec Hk Hcap) in Hx.
        injection Hx as <-. apply Hfield, Hy.
      * rewrite (convert_capped col cell Hdec Hk Hcap) in Hx. discriminate.
    + unfold convert in Hx. rewrite Hk, andb_true_r in Hx.
      destruct (PyStr.isnumeric cell).
      * unfold PyStr.int in Hx. rewrite Hdec in Hx. discriminate.
      * destruct (10000 <? _); [discriminate|]. injection Hx as <-.
        eexists. apply Hfield, Hy.
  - destruct Hk as [Hk [Hm Hcol]].
    rewrite nth_error_app1 in Hn by lia.
    assert (Hy : nth_error (front ++ [v]) col = Some x)
      by (rewrite nth_error_app1 by lia; exact Hn).
    rewrite convert_varchar in Hx by (rewrite Hk; apply andb_false_r).
    destruct (10000 <? PyStr.len (PyStr.replace_quote cell)) eqn:Hlong;
      [discriminate|]. injection Hx as <-.
    exists (PyStr.replace_quote cell), 10000.
    split; [apply Hfield, Hy|]. split; [exact Hm | apply Z.ltb_ge, Hlong].
  - subst col.
    rewrite nth_error_app2 in Hn by lia. rewrite Hfront in Hn. simpl in Hn.
    injection Hn as <-.
    rewrite convert_varchar in Hx by apply andb_false_r.
    destruct (10000 <? _); [discriminate|]. injection Hx as Hs. subst s.
    exists v. split; [|exact Hv].
    apply Hfield. rewrite nth_error_app2 by lia. rewrite Hfront. reflexivity.
Qed.

(** X13, on a row whose popularity is written with a decimal point: the
    [INT64] field "popularity" receives a string. *)
Lemma movie_entity_against_schema_witness :
  exists d s,
    transform Literal.literal_eval decimal_point_row = Inserted d
    /\ nth_error d 12 = Some [VStr s].
Proof.
  assert (Ht : transform Literal.literal_eval decimal_point_row =
               Inserted (match transform Literal.literal_eval decimal_point_row with
                         | Inserted d => d
                         | _ => []
                         end)) by (vm_compute; reflexivity).
  eexists.
  destruct (movie_entity_against_schema Literal.literal_eval decimal_point_row
              _ eq_refl Ht) as [_ [_ H]].
  specialize (H 12%nat (mkField "popularity" INT64 false None None)
                "21.946943"%string eq_refl eq_refl).
  simpl in H. destruct H as [s Hs]. exists s. split; [exact Ht | exact Hs].
Defined.

(** ** The user feature loop *)

Section UserFacts.

Variable literal_eval : string -> exn + pyval.
Variable limit : Z.

(** X14. The user loop wants rows of exactly seven cells: any other row
    makes the [for] statement raise [ValueError], in every state, also past
    the limit; the run ends there, the rows after it stay unread and the
    state is what it was. *)
Theorem user_row_arity (st : state) (row : list string)
    (rest : list (list string)) :
  List.length row <> 7%nat ->
  user_body literal_eval limit st row = UserRaised ValueError
  /\ user_ingest literal_eval limit st (row :: rest) =
       mkRun st (Uncaught ValueError) rest.
Proof.
  intros H.
  assert (Hb : user_body literal_eval limit st row = UserRaised ValueError).
  { do 7 (destruct row as [|? row]; [reflexivity|]).
    destruct row; [destruct H; reflexivity | reflexivity]. }
  split; [exact Hb|]. simpl. rewrite Hb. reflexivity.
Qed.

(** X15. A user row is inserted exactly when the limit is not passed, the
    row has seven cells, [int] accepts the second and [literal_eval] the
    last.  The entity holds that integer, the four cells in between as they
    are (no quote is replaced, no length is compared) and the literal
    value; the first cell is dropped. *)
Theorem user_row_inserted_iff (st : state) (row : list string) (d : entity) :
  user_body literal_eval limit st row = UserInserted d <->
  (it st <= limit
   /\ exists index userId f1 f2 f3 f4 vector n v,
        row = [index; userId; f1; f2; f3; f4; vector]
        /\ Builtins.int userId = inr n
        /\ literal_eval vector = inr v
        /\ d = [[VInt n]; [VStr f1]; [VStr f2]; [VStr f3]; [VStr f4]; [v]]).
Proof.
  split.
  - intros H.
    do 7 (destruct row as [|? row]; [discriminate|]).
    destruct row; [|discriminate]. simpl in H.
    destruct (limit <? it st) eqn:Hl; [discriminate|].
    destruct (Builtins.int s0) as [e|n] eqn:Hi; [discriminate|].
    destruct (literal_eval s5) as [e|v] eqn:Hv; [discriminate|].
    injection H as <-. split; [apply Z.ltb_ge, Hl|].
    exists s, s0, s1, s2, s3, s4, s5, n, v. repeat split; assumption.
  - intros [Hl [index [userId [f1 [f2 [f3 [f4 [vector [n [v [-> [Hi [Hv ->]]]]]]]]]]]]].
    simpl. apply Z.ltb_ge in Hl. rewrite Hl, Hi, Hv. reflexivity.
Qed.

Lemma user_body_inserted_limit (st : state) (row : list string) (d : entity) :
  user_body literal_eval limit st row = UserInserted d -> it st <= limit.
Proof.
  intros H. do 7 (destruct row as [|? row]; [discriminate|]).
  destruct row; [|discriminate]. simpl in H.
  destruct (limit <? it st) eqn:Hl; [discriminate | apply Z.ltb_ge, Hl].
Qed.

(** X16. The user loop never skips a row: the rows it takes are the rows
    it inserts, plus the one row it stops on when the run ends at the limit
    or with an exception.  The counter is the number of inserted entities
    and never passes [limit + 1], and a run that ends at the end of the
    source leaves no row unread. *)
Theorem user_run_never_skips (rows : list (list string)) :
  forall st : state,
    examined rows (user_ingest literal_eval limit st rows) =
      it (final (user_ingest literal_eval limit st rows)) - it st
      + match how (user_ingest literal_eval limit st rows) with
        | Exhausted => 0
        | _ => 1
        end
    /\ it (final (user_ingest literal_eval limit st rows)) - it st =
         Z.of_nat (List.length
                     (inserted (final (user_ingest literal_eval limit st rows))))
         - Z.of_nat (List.length (inserted st))
    /\ it st <= it (final (user_ingest literal_eval limit st rows))
         <= Z.max (it st) (limit + 1)
    /\ (how (user_ingest literal_eval limit st rows) = Exhausted ->
        unread (user_ingest literal_eval limit st rows) = []).
Proof.
  unfold examined.
  induction rows as [|row rest IH]; intros st.
  - simpl. repeat split; lia.
  - simpl user_ingest.
    destruct (user_body literal_eval limit st row) as [|e|d] eqn:Hb.
    + cbn [final how unread it inserted List.length].
      repeat split; try lia; try discriminate.
    + cbn [final how unread it inserted List.length].
      repeat split; try lia; try discriminate.
    + pose proof (user_body_inserted_limit st row d Hb) as Hl.
      destruct (IH (mkState (it st + 1) (d :: inserted st)))
        as [H1 [H2 [H3 H4]]].
      cbn [it inserted List.length] in H1, H2, H3.
      cbn [List.length].
      split; [lia|]. split; [lia|]. split; [lia | exact H4].
Qed.

End UserFacts.

(** X14, on a user row of six cells in a state past the limit. *)
Lemma user_row_arity_witness :
  user_ingest Literal.literal_eval 20000 (mkState 20001 [])
    [UserSample.six_cells; UserSample.row]
  = mkRun (mkState 20001 []) (Uncaught ValueError) [UserSample.row].
Proof.
  apply (user_row_arity Literal.literal_eval 20000 (mkState 20001 [])
           UserSample.six_cells [UserSample.row]).
  vm_compute. discriminate.
Defined.

(** X15, on a user row whose first feature has 10001 characters: it is
    inserted, the feature as it is. *)
Lemma user_row_inserted_iff_witness :
  user_body Literal.literal_eval 20000 start UserSample.long_row =
    UserInserted
      [ [VInt 7]; [VStr Sample.long_text]; [VStr "[0.2]"]; [VStr "[0.3]"];
        [VStr "[0.4]"]; [VList [VInt 1; VInt 2]] ].
Proof.
  apply (proj2 (user_row_inserted_iff Literal.literal_eval 20000 start
                  UserSample.long_row _)).
  split; [vm_compute; discriminate|].
  exists "1"%string, "7"%string, Sample.long_text, "[0.2]"%string,
    "[0.3]"%string, "[0.4]"%string, "[1, 2]"%string, 7,
    (VList [VInt 1; VInt 2]).
  repeat split.
Defined.

(** X4. White space around the user id is ignored by line 204, and a
    signed id is taken: with a minus sign in front of at most 4300 decimal
    digits the entity holds the negative number.  The movie loop, by
    contrast, never turns a signed cell into an integer. *)
Theorem user_id_space_and_sign (literal_eval : string -> exn + pyval)
    (limit : Z) (st : state) (index userId f1 f2 f3 f4 vector : string) :
  (forall c : ascii,
     Builtins.isspace_char c = true ->
     user_body literal_eval limit st
       [index; String c userId; f1; f2; f3; f4; vector] =
       user_body literal_eval limit st [index; userId; f1; f2; f3; f4; vector]
     /\ user_body literal_eval limit st
          [index; (userId ++ String c EmptyString)%string; f1; f2; f3; f4; vector] =
          user_body literal_eval limit st [index; userId; f1; f2; f3; f4; vector])
  /\ (forall v,
        PyStr.isdecimal userId = true ->
        PyStr.len userId <= 4300 ->
        it st <= limit ->
        literal_eval vector = inr v ->
        user_body literal_eval limit st
          [index; String "-" userId; f1; f2; f3; f4; vector] =
          UserInserted
            [ [VInt (- positional userId)]; [VStr f1]; [VStr f2];
              [VStr f3]; [VStr f4]; [v] ])
  /\ (forall col n, convert col (String "-" userId) <> Store (VInt n)).
Proof.
  split; [|split].
  - intros c Hc. destruct (proj1 int_space_and_sign c userId Hc) as [H1 H2].
    unfold user_body. rewrite H1, H2. split; reflexivity.
  - intros v Hd Hcap Hl Hv.
    destruct (proj2 int_space_and_sign userId Hd Hcap) as [H1 _].
    rewrite digits_value_positional in H1.
    replace (0 * 10 ^ PyStr.len userId + positional userId)
      with (positional userId) in H1 by lia.
    unfold user_body. apply Z.ltb_ge in Hl. rewrite Hl, H1, Hv. reflexivity.
  - intros col n H. apply convert_int_inv in H as [H _]. discriminate.
Qed.

Lemma user_id_space_and_sign_witness :
  user_body Literal.literal_eval 20000 start UserSample.row =
    user_body Literal.literal_eval 20000 start
      [ "0"; "-42 "; "[0.1, 'a']"; "[0.2]"; "[0.3]"; "[0.4]"; "[0.5, -1.25]" ]%string
  /\ user_body Literal.literal_eval 20000 start
       [ "0"; "-42"; "[0.1, 'a']"; "[0.2]"; "[0.3]"; "[0.4]"; "[1, 2]" ]%string =
       UserInserted
         [ [VInt (-42)]; [VStr "[0.1, 'a']"]; [VStr "[0.2]"]; [VStr "[0.3]"];
           [VStr "[0.4]"]; [VList [VInt 1; VInt 2]] ].
Proof.
  split.
  - apply (proj1 (user_id_space_and_sign Literal.literal_eval 20000 start
                    "0" "-42 " "[0.1, 'a']" "[0.2]" "[0.3]" "[0.4]"
                    "[0.5, -1.25]") " "%char).
    reflexivity.
  - apply (proj1 (proj2 (user_id_space_and_sign Literal.literal_eval 20000
                           start "0" "42" "[0.1, 'a']" "[0.2]" "[0.3]" "[0.4]"
                           "[1, 2]")) (VList [VInt 1; VInt 2])).
    + reflexivity.
    + vm_compute. discriminate.
    + vm_compute. discriminate.
    + reflexivity.
Defined.

Lemma inserted_extends (literal_eval : string -> exn + pyval) (limit : Z)
    (rows : list (list string)) :
  forall st : state,
    exists more : list entity,
      inserted (final (ingest literal_eval limit st rows)) =
        more ++ inserted st.
Proof.
  induction rows as [|row rest IH]; intros st; simpl.
  - exists []. reflexivity.
  - destruct (body literal_eval limit st row) as [| | |e|d];
      try apply IH; try (exists []; reflexivity).
    destruct (IH (mkState (it st + 1) (d :: inserted st))) as [more H].
    exists (more ++ [d]). rewrite H, <- app_assoc. reflexivity.
Qed.

(** X17. The limit only cuts a run short: with a larger limit the run over
    the same rows from the same state inserts the same entities and
    possibly more after them. *)
Theorem limit_only_truncates (literal_eval : string -> exn + pyval)
    (limit1 limit2 : Z) (rows : list (list string)) :
  limit1 <= limit2 ->
  forall st : state,
    exists more : list entity,
      inserted (final (ingest literal_eval limit2 st rows)) =
        more ++ inserted (final (ingest literal_eval limit1 st rows)).
Proof.
  intros Hle. induction rows as [|row rest IH]; intros st.
  - exists []. reflexivity.
  - destruct (Nat.lt_ge_cases (List.length row) 29) as [Hs|Hs].
    + simpl. rewrite !(body_short literal_eval _ st row Hs). apply IH.
    + destruct (Z.le_gt_cases (it st) limit1) as [Hl|Hl].
      * simpl. rewrite !body_under_limit by lia.
        destruct (transform literal_eval row); try apply IH; exists []; reflexivity.
      * simpl ingest at 2.
        rewrite (body_over_limit literal_eval limit1 st row Hs Hl). simpl.
        exact (inserted_extends literal_eval limit2 (row :: rest) st).
Qed.

Lemma limit_only_truncates_witness :
  exists more,
    inserted (final (ingest Literal.literal_eval 1 start
                       [Sample.row; Sample.two_component_row; Sample.row])) =
      more ++ inserted (final (ingest Literal.literal_eval 0 start
                       [Sample.row; Sample.two_component_row; Sample.row])).
Proof.
  apply (limit_only_truncates Literal.literal_eval 0 1). lia.
Defined.

(** X9, on a source with a short row, an over-long row and two rows that
    are accepted: the run ends at the end of the source, and what it has
    inserted is the entities of the accepted rows, newest first. *)
Lemma inserted_in_order_witness :
  inserted (final (ingest Literal.literal_eval 20000 start
             [Sample.short_row; Sample.row; Sample.long_row;
              Sample.two_component_row])) =
    rev (accepted Literal.literal_eval
           [Sample.short_row; Sample.row; Sample.long_row;
            Sample.two_component_row]).
Proof.
  destruct (inserted_in_order Literal.literal_eval 20000
              [Sample.short_row; Sample.row; Sample.long_row;
               Sample.two_component_row] start) as [n [_ [H [_ Hn]]]].
  rewrite H, Hn by (vm_compute; reflexivity).
  rewrite firstn_all. apply app_nil_r.
Defined.

(** X12, on the run that stops at the row whose vector literal does not
    parse: three rows are taken, one is left. *)
Lemma run_bookkeeping_witness :
  examined [Sample.short_row; Sample.row; Sample.unclosed_row; Sample.row]
    (ingest Literal.literal_eval 20000 start
       [Sample.short_row; Sample.row; Sample.unclosed_row; Sample.row]) = 3.
Proof.
  destruct (run_bookkeeping Literal.literal_eval 20000
              [Sample.short_row; Sample.row; Sample.unclosed_row; Sample.row]
              start) as [taken [H1 [H2 _]]].
  rewrite H2.
  assert (Hl : List.length
            [Sample.short_row; Sample.row; Sample.unclosed_row; Sample.row]
          = (List.length taken + 1)%nat).
  { rewrite H1 at 1. rewrite length_app. f_equal. }
  simpl in Hl. lia.
Defined.

(** ** String cells *)

(** C4. A cell that takes the string branch is sanitized first: the string
    the loop goes on with has the length of the cell and, character by
    character, a space where the cell has a single quote and the cell's
    character elsewhere.  When that string has at most 10000 characters it
    is what the loop stores, and what an inserted entity holds at the
    cell's position (for the last cell, its literal value).  When it has
    more than 10000 characters no entity is built from the row: nothing is
    inserted and the counter stays; the row is skipped and the loop goes on
    with the next row, the one other way out of the column loop being an
    exception raised by an earlier cell. *)
Theorem long_field_rejects_row (literal_eval : string -> exn + pyval)
    (limit : Z) (st : state) (row pre post : list string) (cell : string)
    (rest : list (list string)) :
  (29 <= List.length row)%nat ->
  it st <= limit ->
  tl row = pre ++ cell :: post ->
  PyStr.isnumeric cell && in_numeric_columns (List.length pre) = false ->
  (PyStr.len (PyStr.replace_quote cell) = PyStr.len cell
   /\ forall i,
        String.get i (PyStr.replace_quote cell) =
          option_map (fun c => if PyStr.code c =? 39 then " "%char else c)
            (String.get i cell))
  /\ (PyStr.len (PyStr.replace_quote cell) <= 10000 ->
      convert (List.length pre) cell = Store (VStr (PyStr.replace_quote cell))
      /\ forall d,
           body literal_eval limit st row = Inserted d ->
           match post with
           | [] =>
               exists v,
                 literal_eval (PyStr.replace_quote cell) = inr v
                 /\ nth_error d (List.length pre) = Some [v]
           | _ :: _ =>
               nth_error d (List.length pre) =
                 Some [VStr (PyStr.replace_quote cell)]
           end)
  /\ (10000 < PyStr.len (PyStr.replace_quote cell) ->
      convert (List.length pre) cell = LongData
      /\ (forall d, body literal_eval limit st row <> Inserted d)
      /\ final (ingest literal_eval limit st [row]) = st
      /\ ((forall e, columns 0 pre <> LoopRaise e) ->
          body literal_eval limit st row = LongRow
          /\ ingest literal_eval limit st (row :: rest) =
               ingest literal_eval limit st rest)).
Proof.
  intros Hrow Hl Ht Hg.
  split; [split; [apply replace_quote_length | apply replace_quote_get]|].
  split.
  - intros Hlen.
    assert (Hconv : convert (List.length pre) cell =
                    Store (VStr (PyStr.replace_quote cell))).
    { rewrite (convert_varchar _ _ Hg). apply Z.ltb_ge in Hlen.
      rewrite Hlen. reflexivity. }
    split; [exact Hconv|].
    intros d Hb. rewrite body_under_limit in Hb by exact Hl.
    destruct (transform_inserted_inv literal_eval row d Hb)
      as [_ [arr [front [s [v [Hc [Ha [Hv Hd]]]]]]]].
    assert (Hcell : nth_error (tl row) (List.length pre) = Some cell).
    { rewrite Ht, nth_error_app2 by lia. rewrite Nat.sub_diag. reflexivity. }
    destruct (columns_nth _ _ _ Hc _ _ Hcell) as [x [Hx Hn]].
    simpl in Hx. rewrite Hconv in Hx. injection Hx as <-.
    pose proof (columns_length _ _ _ Hc) as Hlens.
    rewrite Ht, Ha, !length_app in Hlens. simpl in Hlens.
    rewrite Ha in Hn.
    assert (Hfield : forall y, nth_error (front ++ [v]) (List.length pre) = Some y ->
              nth_error d (List.length pre) = Some [y]).
    { intros y Hy. rewrite Hd, nth_error_map, Hy. reflexivity. }
    destruct post as [|next post].
    + simpl in Hlens. assert (Hf : List.length front = List.length pre) by lia.
      rewrite <- Hf in Hn. rewrite nth_error_app2 in Hn by lia.
      rewrite Nat.sub_diag in Hn. simpl in Hn. injection Hn as ->.
      exists v. split; [exact Hv|]. apply Hfield.
      rewrite <- Hf, nth_error_app2 by lia. rewrite Nat.sub_diag. reflexivity.
    + simpl in Hlens. rewrite nth_error_app1 in Hn by lia.
      apply Hfield. rewrite nth_error_app1 by lia. exact Hn.
  - intros Hlen.
    assert (Hn : forall d, body literal_eval limit st row <> Inserted d).
    { intros d. rewrite body_under_limit by exact Hl.
      rewrite (transform_columns literal_eval row Hrow), Ht.
      pose proof (columns_long_incomplete pre post cell Hg Hlen) as Hc.
      destruct (columns 0 (pre ++ cell :: post)) as [a| |e]; try discriminate.
      destruct (Hc a). reflexivity. }
    split.
    { rewrite (convert_varchar _ _ Hg). apply Z.ltb_lt in Hlen.
      rewrite Hlen. reflexivity. }
    split; [exact Hn|]. split.
    { simpl. destruct (body literal_eval limit st row) as [| | |e|d] eqn:Hb;
        try reflexivity. destruct (Hn d). reflexivity. }
    intros Hq.
    assert (Hb : body literal_eval limit st row = LongRow).
    { rewrite body_under_limit by exact Hl.
      rewrite (transform_columns literal_eval row Hrow), Ht.
      rewrite (columns_long pre post cell Hq Hg Hlen). reflexivity. }
    split; [exact Hb|]. apply ingest_skip. right. exact Hb.
Qed.

(** C4, on the sample row, whose overview holds a single quote, and on the
    row whose overview has 10001 characters. *)
Lemma long_field_rejects_row_witness :
  nth_error
    (Sample.entity_with
       (VList [VFloat 5 (-1); VFloat (-125) (-2); VFloat 3 (-2)])) 11 =
    Some [VStr "Led by Woody, Andy s toys live happily."]
  /\ 10000 < PyStr.len (PyStr.replace_quote Sample.long_text)
  /\ body Literal.literal_eval 20000 start Sample.long_row = LongRow
  /\ ingest Literal.literal_eval 20000 start [Sample.long_row; Sample.row] =
       ingest Literal.literal_eval 20000 start [Sample.row].
Proof.
  assert (Hlen : 10000 < PyStr.len (PyStr.replace_quote Sample.long_text))
    by (vm_compute; reflexivity).
  split; [|split; [exact Hlen|]].
  - destruct (long_field_rejects_row Literal.literal_eval 20000 start
                Sample.row (firstn 11 Sample.scalars)
                (skipn 12 Sample.scalars ++ ["[0.5, -1.25, 3e-2]"%string])
                "Led by Woody, Andy's toys live happily." [])
      as [_ [H _]].
    + vm_compute. lia.
    + vm_compute. discriminate.
    + reflexivity.
    + vm_compute. reflexivity.
    + destruct H as [_ H]; [vm_compute; discriminate|].
      apply (H (Sample.entity_with
                  (VList [VFloat 5 (-1); VFloat (-125) (-2); VFloat 3 (-2)]))).
      vm_compute. reflexivity.
  - destruct (long_field_rejects_row Literal.literal_eval 20000 start
                Sample.long_row (firstn 11 Sample.scalars)
                (skipn 12 Sample.scalars ++ ["[0.5, -1.25, 3e-2]"%string])
                Sample.long_text [Sample.row]) as [_ [_ H]].
    + vm_compute. lia.
    + vm_compute. discriminate.
    + reflexivity.
    + vm_compute. reflexivity.
    + destruct (H Hlen) as [_ [_ [_ H']]].
      apply H'. intros e. vm_compute. discriminate.
Defined.
